(** * ManaAnalyzer: a shallow embedding of [ManaAnalyzer.py]

    The analyzer object is a record, its methods are computations in a small
    state-and-exception monad.  Python's [random] module is modelled by an
    oracle [rand : nat -> nat] (the i-th raw random integer) together with a
    cursor kept in the state, so that every theorem quantified over [rand]
    covers every outcome of [choice] and [shuffle].  [run_simulation] returns
    the two statistics that the source prints.  They are exact rationals;
    [round2] stands for Python's float division followed by [round(x, 2)].
    The deck file enters as the list of its numbers. *)

From Stdlib Require Import String Ascii List ZArith QArith Lia Bool Permutation.
From Stdlib Require DecimalString.
Import ListNotations.
Local Open Scope string_scope.
Local Open Scope Z_scope.

(** ** Exceptions and results *)

Inductive exn : Type :=
| IndexError
| TypeError
| ZeroDivisionError.

Inductive result (A : Type) : Type :=
| OK (a : A)
| Raise (e : exn).

Arguments OK {A} a.
Arguments Raise {A} e.

(** ** The analyzer object ([__init__]) *)

Record ManaAnalyzer : Type := mkManaAnalyzer {
  deck_colors : option (list ascii);      (* None until [get_color_id] *)
  successful : Z;
  impossible : Z;
  total_tries : Z;
  land_types : list string;
  land_base : list (string * Z);          (* dict, in insertion order *)
  draw_pile : list string;
  n_of_simulations : Z;
  max_tap_tries : Z;
  deck_name : string
}.

Definition LAND_TYPES : list string :=
  ["W"; "U"; "B"; "R"; "G"; "WU"; "UB"; "BR"; "RG"; "GW"; "WB"; "BG"; "GU"; "UR"; "RW";
   "WUG"; "WUB"; "UBR"; "BRG"; "WRG"; "WBR"; "URG"; "WBG"; "WUR"; "UBG"; "WUBRG"; "C"].

Definition init : ManaAnalyzer :=
  {| deck_colors := None;
     successful := 0;
     impossible := 0;
     total_tries := 0;
     land_types := LAND_TYPES;
     land_base := [];
     draw_pile := [];
     n_of_simulations := 200000;
     max_tap_tries := 50;
     deck_name := "deck.txt" |}.

Definition set_deck_colors (v : option (list ascii)) (o : ManaAnalyzer) : ManaAnalyzer :=
  mkManaAnalyzer v (successful o) (impossible o) (total_tries o) (land_types o)
                 (land_base o) (draw_pile o) (n_of_simulations o) (max_tap_tries o) (deck_name o).

Definition set_successful (v : Z) (o : ManaAnalyzer) : ManaAnalyzer :=
  mkManaAnalyzer (deck_colors o) v (impossible o) (total_tries o) (land_types o)
                 (land_base o) (draw_pile o) (n_of_simulations o) (max_tap_tries o) (deck_name o).

Definition set_impossible (v : Z) (o : ManaAnalyzer) : ManaAnalyzer :=
  mkManaAnalyzer (deck_colors o) (successful o) v (total_tries o) (land_types o)
                 (land_base o) (draw_pile o) (n_of_simulations o) (max_tap_tries o) (deck_name o).

Definition set_total_tries (v : Z) (o : ManaAnalyzer) : ManaAnalyzer :=
  mkManaAnalyzer (deck_colors o) (successful o) (impossible o) v (land_types o)
                 (land_base o) (draw_pile o) (n_of_simulations o) (max_tap_tries o) (deck_name o).

Definition set_land_base (v : list (string * Z)) (o : ManaAnalyzer) : ManaAnalyzer :=
  mkManaAnalyzer (deck_colors o) (successful o) (impossible o) (total_tries o) (land_types o)
                 v (draw_pile o) (n_of_simulations o) (max_tap_tries o) (deck_name o).

Definition set_draw_pile (v : list string) (o : ManaAnalyzer) : ManaAnalyzer :=
  mkManaAnalyzer (deck_colors o) (successful o) (impossible o) (total_tries o) (land_types o)
                 (land_base o) v (n_of_simulations o) (max_tap_tries o) (deck_name o).

Definition set_n_of_simulations (v : Z) (o : ManaAnalyzer) : ManaAnalyzer :=
  mkManaAnalyzer (deck_colors o) (successful o) (impossible o) (total_tries o) (land_types o)
                 (land_base o) (draw_pile o) v (max_tap_tries o) (deck_name o).

Definition set_max_tap_tries (v : Z) (o : ManaAnalyzer) : ManaAnalyzer :=
  mkManaAnalyzer (deck_colors o) (successful o) (impossible o) (total_tries o) (land_types o)
                 (land_base o) (draw_pile o) (n_of_simulations o) v (deck_name o).

(** ** The monad: the object, the cursor into the random oracle, exceptions *)

Record state : Type := mkState {
  self : ManaAnalyzer;
  cursor : nat
}.

Definition M (A : Type) : Type := state -> result (A * state).

Definition ret {A} (a : A) : M A := fun st => OK (a, st).

Definition bind {A B} (c : M A) (k : A -> M B) : M B :=
  fun st => match c st with
            | OK (a, st') => k a st'
            | Raise e => Raise e
            end.

Definition raise {A} (e : exn) : M A := fun _ => Raise e.

Definition get_self : M ManaAnalyzer := fun st => OK (self st, st).

Definition modify_self (f : ManaAnalyzer -> ManaAnalyzer) : M unit :=
  fun st => OK (tt, mkState (f (self st)) (cursor st)).

Declare Scope py_scope.
Delimit Scope py_scope with py.
Notation "x <- c ;; k" := (bind c (fun x => k))
  (at level 61, c at next level, right associativity) : py_scope.
Notation "c ;;; k" := (bind c (fun _ => k))
  (at level 61, right associativity) : py_scope.
Local Open Scope py_scope.

(** ** Python built-ins used by the source *)

(** [range(n)]: empty for [n <= 0]. *)
Definition range (n : Z) : list Z := map Z.of_nat (seq 0 (Z.to_nat n)).

(** [x in l] for one-character strings. *)
Definition mem (c : ascii) (l : list ascii) : bool := existsb (Ascii.eqb c) l.

(** [l[:n]], negative [n] counts from the end. *)
Definition slice_to {A} (n : Z) (l : list A) : list A :=
  if 0 <=? n then firstn (Z.to_nat n) l
  else firstn (length l - Z.to_nat (- n)) l.

(** [d[k] = v] on an insertion-ordered dict. *)
Fixpoint dict_set (k : string) (v : Z) (d : list (string * Z)) : list (string * Z) :=
  match d with
  | [] => [(k, v)]
  | (k', v') :: d' => if String.eqb k' k then (k, v) :: d' else (k', v') :: dict_set k v d'
  end.

(** [l[i] = x]; the source only writes inside the list. *)
Fixpoint list_set {A} (i : nat) (x : A) (l : list A) : list A :=
  match l, i with
  | [], _ => []
  | _ :: l', O => x :: l'
  | y :: l', S i' => y :: list_set i' x l'
  end.

Section Engine.

(** The random oracle and the rounding to two decimals. *)
Variable rand : nat -> nat.
Variable round2 : Q -> Q.

(** [random._randbelow(n)] for [n > 0]. *)
Definition randbelow (n : nat) : M nat :=
  fun st => OK (Nat.modulo (rand (cursor st)) n, mkState (self st) (S (cursor st))).

(** [random.choice(seq)]: IndexError on an empty sequence. *)
Definition choice {A} (seq : list A) : M A :=
  match seq with
  | [] => raise IndexError
  | d :: _ => j <- randbelow (length seq) ;; ret (nth j seq d)
  end.

(** [random.shuffle(x)]:
    [for i in reversed(range(1, len(x))): j = randbelow(i + 1); x[i], x[j] = x[j], x[i]]. *)
Fixpoint shuffle_loop {A} (d : A) (i : nat) (x : list A) : M (list A) :=
  match i with
  | O => ret x
  | S i' =>
      j <- randbelow (S i) ;;
      let xi := nth i x d in
      let xj := nth j x d in
      shuffle_loop d i' (list_set j xi (list_set i xj x))
  end.

Definition shuffle {A} (x : list A) : M (list A) :=
  match x with
  | [] => ret []
  | d :: _ => shuffle_loop d (length x - 1) x
  end.

(** [self.deck_colors] where the source takes its [len] or chooses from it:
    a TypeError while it is still [None]. *)
Definition read_deck_colors : M (list ascii) :=
  o <- get_self ;;
  match deck_colors o with
  | Some dc => ret dc
  | None => raise TypeError
  end.

(** ** [reset] *)

Definition reset : M unit :=
  modify_self (set_deck_colors None) ;;;
  modify_self (set_successful 0) ;;;
  modify_self (set_impossible 0) ;;;
  modify_self (set_total_tries 0).

(** ** [load_deck]

    [parts_clean] is the list of the numbers of the deck file, already split
    and converted; the text format is outside the core. *)

Fixpoint load_counts (index : nat) (lts : list string) (parts_clean : list Z) : M unit :=
  match lts with
  | [] => ret tt
  | land_type :: lts' =>
      match nth_error parts_clean index with
      | None => raise IndexError
      | Some v =>
          modify_self (fun o => set_land_base (dict_set land_type v (land_base o)) o) ;;;
          load_counts (S index) lts' parts_clean
      end
  end.

Fixpoint fill_pile (items : list (string * Z)) (pile : list string) : list string :=
  match items with
  | [] => pile
  | (key, value) :: items' => fill_pile items' (pile ++ repeat key (Z.to_nat value))
  end.

Definition load_deck (parts_clean : list Z) : M unit :=
  o <- get_self ;;
  load_counts 0 (land_types o) parts_clean ;;;
  modify_self (fun o => set_draw_pile (fill_pile (land_base o) (draw_pile o)) o).

(** ** [get_color_id] *)

Fixpoint add_colors (colors : list ascii) (deck_colors : list ascii) : list ascii :=
  match colors with
  | [] => deck_colors
  | color :: colors' =>
      if negb (mem color deck_colors) && negb (Ascii.eqb color "C")
      then add_colors colors' (deck_colors ++ [color])
      else add_colors colors' deck_colors
  end.

Fixpoint color_id_loop (items : list (string * Z)) (deck_colors : list ascii) : list ascii :=
  match items with
  | [] => deck_colors
  | (land, number) :: items' =>
      if negb (String.eqb land "WUBRG") && negb (number =? 0)
      then
        let deck_colors' := add_colors (list_ascii_of_string land) deck_colors in
        if Nat.eqb (length deck_colors') 5 then deck_colors'
        else color_id_loop items' deck_colors'
      else color_id_loop items' deck_colors
  end.

Definition get_color_id : M unit :=
  o <- get_self ;;
  modify_self (set_deck_colors (Some (color_id_loop (land_base o) []))).

(** ** [check_availability] *)

Fixpoint check_colors (dc : list ascii) (all_possible_colors : list ascii) : M bool :=
  match dc with
  | [] => ret true
  | color :: dc' =>
      if negb (mem color all_possible_colors)
      then modify_self (fun o => set_impossible (impossible o + 1) o) ;;; ret false
      else check_colors dc' all_possible_colors
  end.

Definition check_availability (draws : list string) : M bool :=
  dc <- read_deck_colors ;;
  if Nat.ltb (length draws) (length dc) then ret false
  else
    let all_possible_colors := flat_map list_ascii_of_string draws in
    check_colors dc all_possible_colors.

(** ** [analyze_tap_options] *)

(** The value of [tapped] for one drawn land. *)
Definition tap_land (draw : string) : M ascii :=
  let land_colors := list_ascii_of_string draw in
  if Nat.eqb (length land_colors) 5
  then dc <- read_deck_colors ;; choice dc
  else choice land_colors.

(** The inner [for draw in draws] loop; returns [available]. *)
Fixpoint tap_lands (draws : list string) (available : list ascii) : M (list ascii) :=
  match draws with
  | [] => ret available
  | draw :: draws' =>
      tapped <- tap_land draw ;;
      if negb (mem tapped available)
      then tap_lands draws' (available ++ [tapped])
      else tap_lands draws' available
  end.

(** The outer [for n in range(self.max_tap_tries)] loop, and the statement
    after it. *)
Fixpoint tap_loop (ns : list Z) (draws : list string) : M unit :=
  match ns with
  | [] => modify_self (fun o => set_total_tries (total_tries o + max_tap_tries o) o)
  | n :: ns' =>
      available <- tap_lands draws [] ;;
      dc <- read_deck_colors ;;
      if Nat.eqb (length available) (length dc)
      then
        modify_self (fun o => set_successful (successful o + 1) o) ;;;
        modify_self (fun o => set_total_tries (total_tries o + n) o)
      else tap_loop ns' draws
  end.

Definition analyze_tap_options (draws : list string) : M unit :=
  o <- get_self ;;
  tap_loop (range (max_tap_tries o)) draws.

(** ** [initialize] *)

Definition initialize (parts_clean : list Z) : M unit :=
  reset ;;;
  load_deck parts_clean ;;;
  get_color_id.

(** ** [run_simulation] *)

(** The body of the trial loop.  Its value is the value that
    [check_availability] returned, which the source only branches on. *)
Definition trial (n_of_lands : Z) : M bool :=
  o <- get_self ;;
  let current_deck := draw_pile o in
  current_deck <- shuffle current_deck ;;
  let draws := slice_to n_of_lands current_deck in
  ok <- check_availability draws ;;
  (if ok then analyze_tap_options draws else ret tt) ;;;
  ret ok.

(** [k] rounds of the trial loop.  The list of the trials' feasibility
    verdicts is returned for the statements below; [run_simulation] drops it. *)
Fixpoint trials (k : nat) (n_of_lands : Z) : M (list bool) :=
  match k with
  | O => ret []
  | S k' =>
      ok <- trial n_of_lands ;;
      oks <- trials k' n_of_lands ;;
      ret (ok :: oks)
  end.

(** [a / b] on numbers: ZeroDivisionError when [b] is zero. *)
Definition true_div (a b : Q) : M Q :=
  if Qeq_bool b 0 then raise ZeroDivisionError else ret (a / b)%Q.

(** The two statistics that the source prints. *)
Definition report : M (Q * Q) :=
  o <- get_self ;;
  q <- true_div (inject_Z (total_tries o)) (inject_Z (n_of_simulations o - impossible o)) ;;
  let average_tries := round2 q in
  p <- true_div (inject_Z (successful o) * 100)%Q (inject_Z (n_of_simulations o)) ;;
  let percentage := round2 p in
  ret (average_tries, percentage).

Definition run_simulation (parts_clean : list Z) (n_of_lands : Z) : M (Q * Q) :=
  initialize parts_clean ;;;
  o <- get_self ;;
  trials (Z.to_nat (n_of_simulations o)) n_of_lands ;;;
  report.

End Engine.

(** ** Concrete instances used to run the model *)

(** Rounding to the nearest hundredth, [floor (100 x + 1/2) / 100]. *)
Definition round2_nearest (x : Q) : Q :=
  Qmake ((200 * Qnum x + Zpos (Qden x)) / (2 * Zpos (Qden x))) 100.

(** An oracle that replays a finite list of raw random integers, then zeros. *)
Definition oracle_of (l : list nat) : nat -> nat := fun i => nth i l O.

(** The numbers of a deck file with the given counts, zero elsewhere. *)
Definition count_of (spec : list (string * Z)) (land_type : string) : Z :=
  match find (fun kv => String.eqb (fst kv) land_type) spec with
  | Some kv => snd kv
  | None => 0
  end.

Definition deck_file (spec : list (string * Z)) : list Z :=
  map (count_of spec) LAND_TYPES.

(** A fresh analyzer with other settings than the defaults. *)
Definition analyzer (n_sim max_tap : Z) : ManaAnalyzer :=
  set_max_tap_tries max_tap (set_n_of_simulations n_sim init).

Definition start (o : ManaAnalyzer) : state := mkState o 0.

(** The state in which a computation that did not raise has ended. *)
Definition state_after {A} (r : result (A * state)) : state :=
  match r with
  | OK (_, st) => st
  | Raise _ => start init
  end.

(** ** Vocabulary of the statements *)

(** The five colour symbols. *)
Definition colors5 : list ascii := ["W"; "U"; "B"; "R"; "G"]%char.

(** A valid land base: its labels are the fixed land types, its counts are
    not negative. *)
Definition valid_land_base (lb : list (string * Z)) : Prop :=
  forall land number, In (land, number) lb -> In land LAND_TYPES /\ 0 <= number.

(** The union of colours as the specification words it: every label with a
    nonzero count contributes its symbols, the symbol C apart. *)
Definition spec_color_union (lb : list (string * Z)) (c : ascii) : Prop :=
  c <> "C"%char /\
  exists land number,
    In (land, number) lb /\ number <> 0 /\ In c (list_ascii_of_string land).

(** The union of colours that [get_color_id] builds: the label WUBRG does
    not contribute. *)
Definition color_union (lb : list (string * Z)) (c : ascii) : Prop :=
  c <> "C"%char /\
  exists land number,
    In (land, number) lb /\ land <> "WUBRG" /\ number <> 0 /\
    In c (list_ascii_of_string land).

(** Number of trials of a run that failed the feasibility check. *)
Definition infeasible_count (oks : list bool) : Z :=
  Z.of_nat (length (filter negb oks)).

(** The land base that a deck file yields on a fresh analyzer. *)
Definition land_base_of (parts_clean : list Z) : list (string * Z) :=
  combine LAND_TYPES parts_clean.

(** One entry per land: every label repeated its count many times. *)
Definition pile_of (lb : list (string * Z)) : list string :=
  flat_map (fun kv => repeat (fst kv) (Z.to_nat (snd kv))) lb.

(** The sum of the counts of a land base. *)
Definition total_lands (lb : list (string * Z)) : Z :=
  fold_right (fun kv acc => snd kv + acc) 0 lb.

(** Number of trials of a run that reached the tap search. *)
Definition feasible_count (oks : list bool) : Z :=
  Z.of_nat (length (filter (fun ok => ok) oks)).

(** Number of lands in the hand of every trial of a run. *)
Definition hand_size (n_of_lands : Z) (o : ManaAnalyzer) : nat :=
  length (slice_to n_of_lands (draw_pile o)).

(** What no trial changes: everything but the three counters. *)
Definition same_setup (o o' : ManaAnalyzer) : Prop :=
  deck_colors o' = deck_colors o /\
  land_types o' = land_types o /\
  land_base o' = land_base o /\
  draw_pile o' = draw_pile o /\
  n_of_simulations o' = n_of_simulations o /\
  max_tap_tries o' = max_tap_tries o /\
  deck_name o' = deck_name o.

(** The symbols of the labels of a hand. *)
Definition hand_symbols (draws : list string) : list ascii :=
  flat_map list_ascii_of_string draws.

(** Two sets of colours given as lists are the same set. *)
Definition same_colors (l1 l2 : list ascii) : Prop :=
  forall c, In c l1 <-> In c l2.

(** ** Vocabulary of the further properties *)

(** The first three statements of the trial loop's body: copy the pile,
    shuffle the copy, take the first [n_of_lands] entries. *)
Definition draw_hand (rand : nat -> nat) (n_of_lands : Z) : M (list string) :=
  bind get_self (fun o =>
  bind (shuffle rand (draw_pile o)) (fun current_deck =>
  ret (slice_to n_of_lands current_deck))).

(** A land base in which only the presence of a label is kept. *)
Definition presence (lb : list (string * Z)) : list (string * Z) :=
  map (fun kv => (fst kv, if snd kv =? 0 then 0 else 1)) lb.

(** The number of lands that the counts put in the pile: a negative count
    puts none. *)
Definition lands_in_pile (lb : list (string * Z)) : Z :=
  fold_right (fun kv acc => Z.max 0 (snd kv) + acc) 0 lb.

(** An analyzer on which no deck has been loaded yet. *)
Definition fresh (o : ManaAnalyzer) : Prop :=
  land_types o = LAND_TYPES /\ land_base o = [] /\ draw_pile o = [].

(** ** [load_deck] on the text of the deck line

    [parts] is the list that [re.split] returns for the first line of the
    file.  [int_of] stands for Python's [int] on a string, [None] where it
    raises ValueError. *)

Inductive text_outcome : Type :=
| Loaded (st : state)
| LoadRaises (e : exn)
| LoadValueError.

Definition of_result (r : result (unit * state)) : text_outcome :=
  match r with
  | OK (_, st) => Loaded st
  | Raise e => LoadRaises e
  end.

(** The loop that keeps the parts other than the empty string. *)
Definition clean_parts (parts : list string) : list string :=
  filter (fun part => negb (String.eqb part "")) parts.

Section DeckText.

Variable int_of : string -> option Z.

(** [self.land_base[land_type] = int(parts_clean[index])] for every land
    type: the subscript first, then the conversion. *)
Fixpoint load_counts_text (index : nat) (lts : list string) (parts_clean : list string)
         (st : state) : text_outcome :=
  match lts with
  | [] => Loaded st
  | land_type :: lts' =>
      match nth_error parts_clean index with
      | None => LoadRaises IndexError
      | Some part =>
          match int_of part with
          | None => LoadValueError
          | Some v =>
              load_counts_text (S index) lts' parts_clean
                (mkState (set_land_base (dict_set land_type v (land_base (self st))) (self st))
                         (cursor st))
          end
      end
  end.

Definition load_deck_text (parts : list string) (st : state) : text_outcome :=
  match load_counts_text 0 (land_types (self st)) (clean_parts parts) st with
  | Loaded st1 =>
      Loaded (mkState (set_draw_pile (fill_pile (land_base (self st1)) (draw_pile (self st1)))
                                     (self st1))
                      (cursor st1))
  | LoadRaises e => LoadRaises e
  | LoadValueError => LoadValueError
  end.

End DeckText.

(** A reader of decimal numbers, an optional minus sign and digits, for the
    examples. *)
Definition int_of_decimal (s : string) : option Z :=
  option_map Z.of_int (DecimalString.NilEmpty.int_of_string s).

(** * Properties *)

(** ** Membership and the monad *)

Lemma mem_In (c : ascii) (l : list ascii) : mem c l = true <-> In c l.
Proof.
  unfold mem. rewrite existsb_exists. split.
  - intros [x [Hx He]]. apply Ascii.eqb_eq in He. now subst.
  - intros H. exists c. split; [assumption | apply Ascii.eqb_refl].
Qed.

Lemma mem_false (c : ascii) (l : list ascii) : mem c l = false <-> ~ In c l.
Proof.
  rewrite <- mem_In. destruct (mem c l); split; congruence.
Qed.

Lemma bind_OK {A B} (c : M A) (k : A -> M B) st b st2 :
  bind c k st = OK (b, st2) ->
  exists a st1, c st = OK (a, st1) /\ k a st1 = OK (b, st2).
Proof.
  unfold bind. destruct (c st) as [[a st1]|e]; [|discriminate].
  intros H. now exists a, st1.
Qed.

Lemma bind_step {A B} (c : M A) (k : A -> M B) st a st1 :
  c st = OK (a, st1) -> bind c k st = k a st1.
Proof. unfold bind. now intros ->. Qed.

Lemma bind_raise {A B} (c : M A) (k : A -> M B) st e :
  c st = Raise e -> bind c k st = Raise e.
Proof. unfold bind. now intros ->. Qed.

(** ** The colour identity *)

Lemma add_colors_In (colors acc : list ascii) (c : ascii) :
  In c (add_colors colors acc) <-> In c acc \/ (In c colors /\ c <> "C"%char).
Proof.
  revert acc. induction colors as [|x colors IH]; intros acc; simpl.
  - tauto.
  - destruct (mem x acc) eqn:Hm; simpl.
    + apply mem_In in Hm. rewrite IH. split; [tauto|].
      intros [H|[[->|H] Hc]]; tauto.
    + apply mem_false in Hm.
      destruct (Ascii.eqb x "C") eqn:Hc; simpl.
      * apply Ascii.eqb_eq in Hc. subst x. rewrite IH. split; [tauto|].
        intros [H|[[<-|H] Hn]]; tauto.
      * apply Ascii.eqb_neq in Hc. rewrite IH, in_app_iff. simpl. split.
        -- intros [[H|[<-|[]]]|H]; tauto.
        -- intros [H|[[<-|H] Hn]]; tauto.
Qed.

Lemma add_colors_NoDup (colors acc : list ascii) :
  NoDup acc -> NoDup (add_colors colors acc).
Proof.
  revert acc. induction colors as [|x colors IH]; intros acc Hnd; simpl; [assumption|].
  destruct (mem x acc) eqn:Hm; simpl; [now apply IH|].
  destruct (Ascii.eqb x "C"); simpl; [now apply IH|].
  apply IH. apply mem_false in Hm.
  apply NoDup_app; [assumption | repeat constructor; simpl; tauto |].
  intros a Ha [<-|[]]. contradiction.
Qed.

Lemma land_type_symbols (land : string) (c : ascii) :
  In land LAND_TYPES -> In c (list_ascii_of_string land) -> c <> "C"%char -> In c colors5.
Proof.
  unfold LAND_TYPES. intros Hl Hc Hn.
  repeat (destruct Hl as [<-|Hl];
          [simpl in Hc; unfold colors5; simpl; intuition congruence|]).
  destruct Hl.
Qed.

Lemma color_id_loop_In (items : list (string * Z)) :
  valid_land_base items ->
  forall acc, NoDup acc -> incl acc colors5 ->
  forall c, In c (color_id_loop items acc) <-> In c acc \/ color_union items c.
Proof.
  induction items as [|[land number] items IH]; intros Hv acc Hnd Hincl c; simpl.
  - split; [tauto|]. intros [H|[_ [l [n [[] _]]]]]. assumption.
  - assert (Hv' : valid_land_base items).
    { intros l n H. apply Hv. now right. }
    assert (Hhere : In land LAND_TYPES) by (apply (Hv land number); now left).
    assert (Htail : color_union ((land, number) :: items) c <->
                    (c <> "C"%char /\ land <> "WUBRG" /\ number <> 0 /\
                     In c (list_ascii_of_string land)) \/ color_union items c).
    { unfold color_union. split.
      - intros [Hc [l [n [[Heq|Hin] H]]]].
        + inversion Heq; subst. left. tauto.
        + right. split; [assumption|]. now exists l, n.
      - intros [[Hc H]|[Hc [l [n [Hin H]]]]].
        + split; [assumption|]. exists land, number. split; [now left | tauto].
        + split; [assumption|]. exists l, n. split; [now right | assumption]. }
    rewrite Htail.
    destruct (String.eqb land "WUBRG") eqn:Hw; simpl.
    + apply String.eqb_eq in Hw. rewrite (IH Hv' acc Hnd Hincl c). tauto.
    + apply String.eqb_neq in Hw.
      destruct (number =? 0) eqn:Hz; simpl.
      * apply Z.eqb_eq in Hz. rewrite (IH Hv' acc Hnd Hincl c). tauto.
      * apply Z.eqb_neq in Hz.
        set (acc' := add_colors (list_ascii_of_string land) acc).
        assert (Hnd' : NoDup acc') by now apply add_colors_NoDup.
        assert (Hincl' : incl acc' colors5).
        { intros x Hx. apply add_colors_In in Hx. destruct Hx as [Hx|[Hx Hn]].
          - now apply Hincl.
          - now apply (land_type_symbols land). }
        assert (Hacc' : In c acc' <->
                        In c acc \/ (In c (list_ascii_of_string land) /\ c <> "C"%char))
          by apply add_colors_In.
        destruct (Nat.eqb (length acc') 5) eqn:Hfull.
        -- apply Nat.eqb_eq in Hfull. rewrite Hacc'. split; [tauto|].
           intros [H|[H|H]]; [tauto | tauto |].
           apply Hacc'.
           apply (@NoDup_length_incl _ acc' colors5 Hnd');
             [rewrite Hfull; simpl; lia | assumption |].
           destruct H as [Hc [l [n [Hin [_ [_ Hsym]]]]]].
           apply (land_type_symbols l); [apply (Hv' l n Hin) | assumption | assumption].
        -- rewrite (IH Hv' acc' Hnd' Hincl' c), Hacc'. tauto.
Qed.

Lemma color_id_loop_NoDup (items : list (string * Z)) :
  forall acc, NoDup acc -> NoDup (color_id_loop items acc).
Proof.
  induction items as [|[land number] items IH]; intros acc Hnd; simpl; [assumption|].
  destruct (negb (String.eqb land "WUBRG") && negb (number =? 0)); [|now apply IH].
  destruct (Nat.eqb _ 5); [now apply add_colors_NoDup|].
  apply IH. now apply add_colors_NoDup.
Qed.

Lemma color_id_loop_no_C (items : list (string * Z)) :
  forall acc, ~ In "C"%char acc -> ~ In "C"%char (color_id_loop items acc).
Proof.
  induction items as [|[land number] items IH]; intros acc Hn; simpl; [assumption|].
  assert (H : ~ In "C"%char (add_colors (list_ascii_of_string land) acc)).
  { rewrite add_colors_In. tauto. }
  destruct (negb (String.eqb land "WUBRG") && negb (number =? 0)); [|now apply IH].
  destruct (Nat.eqb _ 5); [assumption | now apply IH].
Qed.

Lemma get_color_id_run (st : state) :
  get_color_id st =
  OK (tt, mkState (set_deck_colors (Some (color_id_loop (land_base (self st)) [])) (self st))
                  (cursor st)).
Proof. reflexivity. Qed.

Lemma valid_land_base_of (parts_clean : list Z) :
  Forall (fun v => 0 <= v) parts_clean -> valid_land_base (land_base_of parts_clean).
Proof.
  intros Hall land number Hin. unfold land_base_of in Hin. split.
  - exact (in_combine_l _ _ _ _ Hin).
  - apply in_combine_r in Hin. rewrite Forall_forall in Hall. now apply Hall.
Qed.

(** ** Loading the deck *)

Lemma fill_pile_app (items : list (string * Z)) (pile : list string) :
  fill_pile items pile = (pile ++ pile_of items)%list.
Proof.
  revert pile. induction items as [|[key value] items IH]; intros pile; simpl.
  - now rewrite app_nil_r.
  - rewrite IH. now rewrite <- app_assoc.
Qed.

Lemma pile_of_length (lb : list (string * Z)) :
  (forall land number, In (land, number) lb -> 0 <= number) ->
  Z.of_nat (length (pile_of lb)) = total_lands lb.
Proof.
  induction lb as [|[key value] lb IH]; intros Hpos; simpl; [reflexivity|].
  rewrite length_app, repeat_length, Nat2Z.inj_add, IH.
  - rewrite Z2Nat.id; [reflexivity|]. apply (Hpos key value). now left.
  - intros l n H. apply (Hpos l n). now right.
Qed.

Lemma pile_of_count (lb : list (string * Z)) (land : string) :
  NoDup (map fst lb) ->
  forall number, In (land, number) lb ->
  count_occ string_dec (pile_of lb) land = Z.to_nat number.
Proof.
  induction lb as [|[key value] lb IH]; intros Hnd number Hin; simpl in *; [contradiction|].
  inversion Hnd as [|? ? Hfresh Hnd']; subst.
  rewrite count_occ_app.
  assert (Hrep : forall k n, count_occ string_dec (repeat k n) land =
                             if string_dec k land then n else O).
  { intros k n. induction n as [|n IHn]; simpl.
    - now destruct (string_dec k land).
    - destruct (string_dec k land); [now rewrite IHn | assumption]. }
  rewrite Hrep.
  assert (Hnotin : forall v, In (key, v) lb -> False).
  { intros v Hv. apply Hfresh. change key with (fst (key, v)). now apply in_map. }
  destruct (string_dec key land) as [Hkl|Hkl].
  - rewrite <- Hkl in *.
    destruct Hin as [Heq|Hin]; [|exfalso; now apply (Hnotin number)].
    assert (Hz : count_occ string_dec (pile_of lb) key = O).
    { apply count_occ_not_In. intros Hp.
      unfold pile_of in Hp. apply in_flat_map in Hp. destruct Hp as [[k v] [Hk Hr]].
      apply repeat_spec in Hr. simpl in Hr. subst k. now apply (Hnotin v). }
    rewrite Hz. injection Heq as ->. lia.
  - destruct Hin as [Heq|Hin]; [congruence|].
    now rewrite (IH Hnd' number Hin).
Qed.

Lemma load_counts_fresh (o : ManaAnalyzer) (cur : nat) (parts_clean : list Z) :
  land_base o = [] ->
  (27 <= length parts_clean)%nat ->
  load_counts 0 LAND_TYPES parts_clean (mkState o cur) =
  OK (tt, mkState (set_land_base (land_base_of parts_clean) o) cur).
Proof.
  destruct o as [dc su im tt0 lt lb dp ns mt dn]. simpl. intros -> Hlen.
  do 27 (destruct parts_clean as [|? parts_clean]; [simpl in Hlen; lia|]).
  vm_compute. reflexivity.
Qed.

Lemma load_deck_fresh (o : ManaAnalyzer) (cur : nat) (parts_clean : list Z) :
  land_types o = LAND_TYPES ->
  land_base o = [] ->
  (27 <= length parts_clean)%nat ->
  load_deck parts_clean (mkState o cur) =
  OK (tt, mkState
            (mkManaAnalyzer (deck_colors o) (successful o) (impossible o) (total_tries o)
                            LAND_TYPES (land_base_of parts_clean)
                            (draw_pile o ++ pile_of (land_base_of parts_clean))
                            (n_of_simulations o) (max_tap_tries o) (deck_name o))
            cur).
Proof.
  intros Hlt Hlb Hlen. unfold load_deck.
  rewrite (bind_step _ _ _ o (mkState o cur)) by reflexivity.
  rewrite Hlt.
  rewrite (bind_step _ _ _ _ _ (load_counts_fresh o cur parts_clean Hlb Hlen)).
  unfold modify_self, set_draw_pile, set_land_base.
  cbn [self cursor land_base draw_pile deck_colors successful impossible total_tries
       land_types n_of_simulations max_tap_tries deck_name].
  rewrite fill_pile_app, Hlt. reflexivity.
Qed.

(** On an analyzer whose dict is still empty, [initialize] zeroes the
    counters, stores the 27 counts in the order of the land types, appends
    to the draw pile one entry per land, and derives the colour identity. *)
Lemma initialize_fresh (o : ManaAnalyzer) (cur : nat) (parts_clean : list Z) :
  land_types o = LAND_TYPES ->
  land_base o = [] ->
  (27 <= length parts_clean)%nat ->
  initialize parts_clean (mkState o cur) =
  OK (tt, mkState
            (mkManaAnalyzer (Some (color_id_loop (land_base_of parts_clean) []))
                            0 0 0 LAND_TYPES (land_base_of parts_clean)
                            (draw_pile o ++ pile_of (land_base_of parts_clean))
                            (n_of_simulations o) (max_tap_tries o) (deck_name o))
            cur).
Proof.
  intros Hlt Hlb Hlen. unfold initialize.
  rewrite (bind_step _ _ _ tt
             (mkState (set_total_tries 0 (set_impossible 0 (set_successful 0
                         (set_deck_colors None o)))) cur)) by reflexivity.
  erewrite bind_step; [| apply load_deck_fresh; assumption].
  rewrite get_color_id_run. reflexivity.
Qed.

(** ** Drawing a hand *)

Lemma list_set_length {A} (i : nat) (x : A) (l : list A) :
  length (list_set i x l) = length l.
Proof.
  revert i. induction l as [|y l IH]; intros [|i]; simpl; auto.
Qed.

Lemma shuffle_loop_S {A} (rand : nat -> nat) (d : A) (i : nat) (x : list A) st :
  shuffle_loop rand d (S i) x st =
  shuffle_loop rand d i
    (list_set (Nat.modulo (rand (cursor st)) (S (S i))) (nth (S i) x d)
       (list_set (S i) (nth (Nat.modulo (rand (cursor st)) (S (S i))) x d) x))
    (mkState (self st) (S (cursor st))).
Proof. reflexivity. Qed.

Lemma shuffle_loop_OK {A} (rand : nat -> nat) (d : A) (i : nat) :
  forall (x : list A) st,
  exists y st',
    shuffle_loop rand d i x st = OK (y, st') /\
    length y = length x /\ self st' = self st.
Proof.
  induction i as [|i IH]; intros x st.
  - exists x, st. now unfold ret.
  - rewrite shuffle_loop_S.
    match goal with |- context [shuffle_loop rand d i ?x' ?s'] =>
      destruct (IH x' s') as [y [st' [Hrun [Hlen Hself]]]] end.
    exists y, st'. split; [exact Hrun|]. split; [|exact Hself].
    now rewrite Hlen, !list_set_length.
Qed.

Lemma shuffle_OK {A} (rand : nat -> nat) (x : list A) st :
  exists y st',
    shuffle rand x st = OK (y, st') /\ length y = length x /\ self st' = self st.
Proof.
  destruct x as [|d x].
  - exists [], st. now unfold ret.
  - exact (shuffle_loop_OK rand d (length (d :: x) - 1) (d :: x) st).
Qed.

Lemma list_set_head_perm {A} (d a : A) (l : list A) (j : nat) :
  (j < length l)%nat -> Permutation (nth j l d :: list_set j a l) (a :: l).
Proof.
  revert j. induction l as [|b l IH]; intros [|j] Hj; simpl in *; try lia.
  - apply perm_swap.
  - etransitivity; [apply perm_swap|].
    etransitivity; [|apply perm_swap].
    apply perm_skip. apply IH. lia.
Qed.

Lemma list_set_swap_perm {A} (d : A) (l : list A) :
  forall i j, (i < length l)%nat -> (j < length l)%nat ->
  Permutation (list_set j (nth i l d) (list_set i (nth j l d) l)) l.
Proof.
  induction l as [|a l IH]; intros [|i] [|j] Hi Hj; simpl in *; try lia.
  - reflexivity.
  - apply list_set_head_perm. lia.
  - apply list_set_head_perm. lia.
  - apply perm_skip. apply IH; lia.
Qed.

(** The shuffle only reorders the pile. *)
Lemma shuffle_loop_Permutation {A} (rand : nat -> nat) (d : A) (i : nat) :
  forall (x y : list A) st st',
  (i < length x)%nat ->
  shuffle_loop rand d i x st = OK (y, st') -> Permutation y x.
Proof.
  induction i as [|i IH]; intros x y st st' Hi Hrun.
  - injection Hrun as <- _. reflexivity.
  - rewrite shuffle_loop_S in Hrun.
    apply IH in Hrun; [|rewrite !list_set_length; lia].
    etransitivity; [exact Hrun|].
    apply list_set_swap_perm; [assumption|].
    pose proof (Nat.mod_upper_bound (rand (cursor st)) (S (S i)) ltac:(discriminate)).
    lia.
Qed.

Lemma shuffle_Permutation {A} (rand : nat -> nat) (x y : list A) st st' :
  shuffle rand x st = OK (y, st') -> Permutation y x.
Proof.
  destruct x as [|d x].
  - intros H. injection H as <- _. reflexivity.
  - apply shuffle_loop_Permutation. simpl. lia.
Qed.

Lemma slice_to_length {A B} (n : Z) (l : list A) (l' : list B) :
  length l = length l' -> length (slice_to n l) = length (slice_to n l').
Proof.
  intros H. unfold slice_to. destruct (0 <=? n); rewrite !length_firstn, H; reflexivity.
Qed.

Lemma slice_to_all {A} (n : Z) (l : list A) :
  Z.of_nat (length l) <= n -> slice_to n l = l.
Proof.
  intros H. unfold slice_to.
  destruct (0 <=? n) eqn:Hn; [|apply Z.leb_gt in Hn; lia].
  apply firstn_all2. lia.
Qed.

(** ** The feasibility check *)

Lemma check_colors_run (dc apc : list ascii) (st : state) :
  check_colors dc apc st =
  if forallb (fun c => mem c apc) dc
  then OK (true, st)
  else OK (false, mkState (set_impossible (impossible (self st) + 1) (self st)) (cursor st)).
Proof.
  induction dc as [|c dc IH]; simpl; [reflexivity|].
  destruct (mem c apc); simpl; [exact IH | reflexivity].
Qed.

Lemma check_availability_run (draws : list string) (dc : list ascii) (st : state) :
  deck_colors (self st) = Some dc ->
  check_availability draws st =
  if Nat.ltb (length draws) (length dc) then OK (false, st)
  else if forallb (fun c => mem c (hand_symbols draws)) dc
       then OK (true, st)
       else OK (false, mkState (set_impossible (impossible (self st) + 1) (self st))
                               (cursor st)).
Proof.
  intros Hdc. unfold check_availability, read_deck_colors, bind, get_self.
  rewrite Hdc. unfold ret.
  destruct (Nat.ltb (length draws) (length dc)); [reflexivity|].
  apply check_colors_run.
Qed.

(** A hand with fewer lands than required colours is turned down, and the
    object is left as it was: [impossible] is not incremented. *)
Lemma check_availability_too_few (draws : list string) (dc : list ascii) (st : state) :
  deck_colors (self st) = Some dc ->
  (length draws < length dc)%nat ->
  check_availability draws st = OK (false, st).
Proof.
  intros Hdc Hlt. rewrite (check_availability_run draws dc st Hdc).
  apply Nat.ltb_lt in Hlt. now rewrite Hlt.
Qed.

(** A hand that lacks a required colour in all its labels is turned down,
    and [impossible] is incremented. *)
Lemma check_availability_missing (draws : list string) (dc : list ascii) (st : state) (c : ascii) :
  deck_colors (self st) = Some dc ->
  (length dc <= length draws)%nat ->
  In c dc -> ~ In c (hand_symbols draws) ->
  check_availability draws st =
  OK (false, mkState (set_impossible (impossible (self st) + 1) (self st)) (cursor st)).
Proof.
  intros Hdc Hle Hin Hout. rewrite (check_availability_run draws dc st Hdc).
  apply Nat.ltb_ge in Hle. rewrite Hle.
  destruct (forallb _ dc) eqn:Hall; [|reflexivity].
  rewrite forallb_forall in Hall. specialize (Hall c Hin).
  apply mem_In in Hall. contradiction.
Qed.

(** ** The tap search *)

Lemma range_In (m n : Z) : In n (range m) <-> 0 <= n < m.
Proof.
  unfold range. rewrite in_map_iff. split.
  - intros [k [<- Hk]]. apply in_seq in Hk. lia.
  - intros H. exists (Z.to_nat n). split; [lia|]. apply in_seq. lia.
Qed.

Lemma choice_cons {A} (rand : nat -> nat) (d : A) (seq : list A) st :
  choice rand (d :: seq) st =
  OK (nth (Nat.modulo (rand (cursor st)) (length (d :: seq))) (d :: seq) d,
      mkState (self st) (S (cursor st))).
Proof. reflexivity. Qed.

Lemma choice_inv {A} (rand : nat -> nat) (seq : list A) st a st' :
  choice rand seq st = OK (a, st') ->
  In a seq /\ st' = mkState (self st) (S (cursor st)).
Proof.
  destruct seq as [|d seq]; [discriminate|].
  rewrite choice_cons. intros H.
  assert (Ha : a = nth (Nat.modulo (rand (cursor st)) (length (d :: seq))) (d :: seq) d)
    by congruence.
  assert (Hs : st' = mkState (self st) (S (cursor st))) by congruence.
  split; [|exact Hs]. rewrite Ha.
  apply nth_In. apply Nat.mod_upper_bound. discriminate.
Qed.

Lemma tap_land_inv (rand : nat -> nat) (draw : string) st c st' :
  tap_land rand draw st = OK (c, st') ->
  st' = mkState (self st) (S (cursor st)) /\
  ((length (list_ascii_of_string draw) = 5%nat /\
    exists dc, deck_colors (self st) = Some dc /\ In c dc) \/
   (length (list_ascii_of_string draw) <> 5%nat /\ In c (list_ascii_of_string draw))).
Proof.
  unfold tap_land.
  destruct (Nat.eqb (length (list_ascii_of_string draw)) 5) eqn:H5.
  - apply Nat.eqb_eq in H5. unfold read_deck_colors, bind, get_self.
    destruct (deck_colors (self st)) as [dc|] eqn:Hdc; [|discriminate].
    unfold ret. intros H. apply choice_inv in H. destruct H as [Hin ->].
    split; [reflexivity|]. left. split; [assumption|]. now exists dc.
  - apply Nat.eqb_neq in H5. intros H. apply choice_inv in H. destruct H as [Hin ->].
    split; [reflexivity|]. right. now split.
Qed.

Lemma tap_lands_inv (rand : nat -> nat) (draws : list string) :
  forall available st a st',
  tap_lands rand draws available st = OK (a, st') ->
  self st' = self st /\
  (NoDup available -> NoDup a) /\
  (forall c, In c a ->
     In c available \/
     exists draw, In draw draws /\
       ((length (list_ascii_of_string draw) = 5%nat /\
         exists dc, deck_colors (self st) = Some dc /\ In c dc) \/
        (length (list_ascii_of_string draw) <> 5%nat /\
         In c (list_ascii_of_string draw)))).
Proof.
  induction draws as [|draw draws IH]; intros available st a st' H.
  - injection H as <- <-. split; [reflexivity|]. split; [tauto|]. intros c Hc. now left.
  - cbn [tap_lands] in H. apply bind_OK in H. destruct H as [tapped [st1 [Htap H]]].
    apply tap_land_inv in Htap. destruct Htap as [-> Htap].
    assert (Hrest : exists available',
               tap_lands rand draws available'
                         (mkState (self st) (S (cursor st))) = OK (a, st') /\
               (NoDup available -> NoDup available') /\
               (forall c, In c available' -> In c available \/ c = tapped)).
    { destruct (mem tapped available) eqn:Hm; simpl in H.
      - exists available. split; [assumption|]. split; [tauto|]. intros c Hc. now left.
      - exists (available ++ [tapped])%list. split; [assumption|]. split.
        + intros Hnd. apply mem_false in Hm. apply NoDup_app; [assumption | |].
          * repeat constructor. simpl. tauto.
          * intros x Hx [<-|[]]. contradiction.
        + intros c Hc. apply in_app_iff in Hc. simpl in Hc.
          destruct Hc as [Hc|[Hc|[]]]; [now left | now right]. }
    destruct Hrest as [available' [Hrun [Hnd Hsub]]].
    apply IH in Hrun. destruct Hrun as [Hself [Hnd' Hin]].
    split; [exact Hself|]. split; [tauto|].
    intros c Hc. destruct (Hin c Hc) as [Hav|[d [Hd Hcase]]].
    + destruct (Hsub c Hav) as [Hold| ->]; [now left|].
      right. exists draw. split; [now left | exact Htap].
    + right. exists d. split; [now right | exact Hcase].
Qed.

(** What one call of the tap search does to the object: a success after
    [n] failed attempts, or the exhausted budget. *)
Lemma tap_loop_inv (rand : nat -> nat) (draws : list string) (ns : list Z) :
  forall st st',
  tap_loop rand ns draws st = OK (tt, st') ->
  (exists n, In n ns /\
     self st' = set_total_tries (total_tries (self st) + n)
                  (set_successful (successful (self st) + 1) (self st))) \/
  self st' = set_total_tries (total_tries (self st) + max_tap_tries (self st)) (self st).
Proof.
  induction ns as [|n ns IH]; intros st st' H.
  - injection H as <-. now right.
  - cbn [tap_loop] in H. apply bind_OK in H. destruct H as [available [st1 [Hav H]]].
    apply tap_lands_inv in Hav. destruct Hav as [Hself _].
    unfold read_deck_colors in H. unfold bind at 1 2 in H. unfold get_self in H.
    destruct (deck_colors (self st1)) as [dc|]; [|discriminate].
    unfold ret in H.
    destruct (Nat.eqb (length available) (length dc)).
    + injection H as <-. left. exists n. split; [now left|]. simpl. now rewrite Hself.
    + apply IH in H. rewrite Hself in H. destruct H as [[m [Hm H]]|H].
      * left. exists m. split; [now right | assumption].
      * now right.
Qed.

Lemma analyze_tap_options_inv (rand : nat -> nat) (draws : list string) st st' :
  analyze_tap_options rand draws st = OK (tt, st') ->
  (exists n, 0 <= n < max_tap_tries (self st) /\
     self st' = set_total_tries (total_tries (self st) + n)
                  (set_successful (successful (self st) + 1) (self st))) \/
  self st' = set_total_tries (total_tries (self st) + max_tap_tries (self st)) (self st).
Proof.
  unfold analyze_tap_options, bind, get_self. intros H.
  apply tap_loop_inv in H. destruct H as [[n [Hn H]]|H]; [|now right].
  left. exists n. split; [now apply range_In | assumption].
Qed.

(** ** One trial, and the trial loop *)

Lemma same_setup_refl (o : ManaAnalyzer) : same_setup o o.
Proof. unfold same_setup. tauto. Qed.

Lemma same_setup_trans (o1 o2 o3 : ManaAnalyzer) :
  same_setup o1 o2 -> same_setup o2 o3 -> same_setup o1 o3.
Proof. unfold same_setup. intuition congruence. Qed.

Lemma same_setup_hand_size (n : Z) (o o' : ManaAnalyzer) :
  same_setup o o' -> hand_size n o' = hand_size n o.
Proof.
  unfold same_setup, hand_size. intros [_ [_ [_ [H _]]]]. now rewrite H.
Qed.

(** The hand of a trial, as the source draws it. *)
Lemma trial_unfold (rand : nat -> nat) (n_of_lands : Z) (st : state) :
  exists current_deck st1,
    shuffle rand (draw_pile (self st)) st = OK (current_deck, st1) /\
    length current_deck = length (draw_pile (self st)) /\
    self st1 = self st /\
    trial rand n_of_lands st =
    bind (check_availability (slice_to n_of_lands current_deck))
         (fun ok =>
            bind (if ok then analyze_tap_options rand (slice_to n_of_lands current_deck)
                  else ret tt)
                 (fun _ => ret ok)) st1.
Proof.
  destruct (shuffle_OK rand (draw_pile (self st)) st) as [y [st1 [Hsh [Hlen Hself]]]].
  exists y, st1. repeat split; try assumption.
  unfold trial. rewrite (bind_step _ _ _ (self st) st) by reflexivity.
  now rewrite (bind_step _ _ _ _ _ Hsh).
Qed.

Lemma trial_inv (rand : nat -> nat) (n_of_lands : Z) (st : state)
      (dc : list ascii) (ok : bool) (st' : state) :
  deck_colors (self st) = Some dc ->
  trial rand n_of_lands st = OK (ok, st') ->
  same_setup (self st) (self st') /\
  (ok = false ->
     successful (self st') = successful (self st) /\
     total_tries (self st') = total_tries (self st) /\
     ((hand_size n_of_lands (self st) < length dc)%nat ->
        impossible (self st') = impossible (self st)) /\
     ((length dc <= hand_size n_of_lands (self st))%nat ->
        impossible (self st') = impossible (self st) + 1)) /\
  (ok = true ->
     (length dc <= hand_size n_of_lands (self st))%nat /\
     impossible (self st') = impossible (self st) /\
     exists b d,
       successful (self st') = successful (self st) + b /\
       total_tries (self st') = total_tries (self st) + d /\
       ((b = 1 /\ 0 <= d < max_tap_tries (self st)) \/
        (b = 0 /\ d = max_tap_tries (self st)))).
Proof.
  intros Hdc Hrun.
  destruct (trial_unfold rand n_of_lands st) as [deck [st1 [_ [Hlen [Hself Heq]]]]].
  rewrite Heq in Hrun. clear Heq.
  set (draws := slice_to n_of_lands deck) in *.
  assert (Hhand : length draws = hand_size n_of_lands (self st)).
  { unfold draws, hand_size. now apply slice_to_length. }
  assert (Hdc1 : deck_colors (self st1) = Some dc) by now rewrite Hself.
  apply bind_OK in Hrun. destruct Hrun as [ok' [st2 [Hchk Hrun]]].
  rewrite (check_availability_run draws dc st1 Hdc1) in Hchk.
  rewrite Hhand in Hchk.
  destruct (Nat.ltb (hand_size n_of_lands (self st)) (length dc)) eqn:Hfew.
  - apply Nat.ltb_lt in Hfew. injection Hchk as <- <-.
    unfold bind, ret in Hrun. injection Hrun as <- <-. rewrite Hself.
    split; [apply same_setup_refl|]. split; [|discriminate].
    intros _. repeat split; try reflexivity. lia.
  - apply Nat.ltb_ge in Hfew.
    destruct (forallb _ dc).
    + injection Hchk as <- <-.
      apply bind_OK in Hrun. destruct Hrun as [[] [st3 [Htap Hret]]].
      unfold ret in Hret. injection Hret as <- <-.
      apply analyze_tap_options_inv in Htap. rewrite Hself in Htap.
      destruct Htap as [[n [Hn Heq]] | Heq]; rewrite Heq.
      * split; [unfold same_setup; simpl; tauto|]. split; [discriminate|].
        intros _. split; [assumption|]. split; [reflexivity|].
        exists 1, n. simpl. tauto.
      * split; [unfold same_setup; simpl; tauto|]. split; [discriminate|].
        intros _. split; [assumption|]. split; [reflexivity|].
        exists 0, (max_tap_tries (self st)). simpl. split; [lia|]. tauto.
    + injection Hchk as <- <-.
      unfold bind, ret in Hrun. injection Hrun as <- <-. simpl. rewrite Hself.
      split; [unfold same_setup; simpl; tauto|]. split; [|discriminate].
      intros _. repeat split; try reflexivity. lia.
Qed.

Lemma feasible_infeasible (oks : list bool) :
  feasible_count oks + infeasible_count oks = Z.of_nat (length oks).
Proof.
  unfold feasible_count, infeasible_count.
  rewrite <- Nat2Z.inj_add. f_equal.
  induction oks as [|[|] oks IH]; simpl; lia.
Qed.

Lemma feasible_count_pos (oks : list bool) : In true oks -> 0 < feasible_count oks.
Proof.
  unfold feasible_count. intros H.
  assert (Hn : (0 < length (filter (fun ok => ok) oks))%nat); [|lia].
  induction oks as [|[|] oks IH]; simpl.
  - contradiction.
  - lia.
  - destruct H as [H|H]; [discriminate | auto].
Qed.

Lemma feasible_count_nonneg (oks : list bool) : 0 <= feasible_count oks.
Proof. unfold feasible_count. lia. Qed.

(** The counters after [k] trials, against the trials' verdicts. *)
Lemma trials_inv (rand : nat -> nat) (n_of_lands : Z) (dc : list ascii) (k : nat) :
  forall st oks st',
  deck_colors (self st) = Some dc ->
  trials rand k n_of_lands st = OK (oks, st') ->
  same_setup (self st) (self st') /\
  length oks = k /\
  ((hand_size n_of_lands (self st) < length dc)%nat ->
     feasible_count oks = 0 /\
     impossible (self st') = impossible (self st) /\
     successful (self st') = successful (self st) /\
     total_tries (self st') = total_tries (self st)) /\
  ((length dc <= hand_size n_of_lands (self st))%nat ->
     impossible (self st') = impossible (self st) + infeasible_count oks) /\
  (0 <= max_tap_tries (self st) ->
     successful (self st) <= successful (self st') <=
       successful (self st) + feasible_count oks /\
     total_tries (self st) <= total_tries (self st') <=
       total_tries (self st) + max_tap_tries (self st) * feasible_count oks).
Proof.
  induction k as [|k IH]; intros st oks st' Hdc Hrun.
  - injection Hrun as <- <-. split; [apply same_setup_refl|]. split; [reflexivity|].
    unfold feasible_count, infeasible_count. simpl. repeat split; lia.
  - cbn [trials] in Hrun.
    apply bind_OK in Hrun. destruct Hrun as [ok [st1 [Htrial Hrun]]].
    apply bind_OK in Hrun. destruct Hrun as [oks' [st2 [Hrest Hret]]].
    unfold ret in Hret. injection Hret as <- <-.
    destruct (trial_inv rand n_of_lands st dc ok st1 Hdc Htrial) as [Hset [Hno Hyes]].
    assert (Hdc1 : deck_colors (self st1) = Some dc).
    { destruct Hset as [-> _]. assumption. }
    destruct (IH st1 oks' st2 Hdc1 Hrest) as [Hset' [Hlen [Hfew [Hpile Hbnd]]]].
    rewrite (same_setup_hand_size n_of_lands _ _ Hset) in Hfew, Hpile.
    assert (Hmax : max_tap_tries (self st1) = max_tap_tries (self st))
      by (unfold same_setup in Hset; tauto).
    rewrite Hmax in Hbnd.
    split; [exact (same_setup_trans _ _ _ Hset Hset')|].
    split; [simpl; now rewrite Hlen|].
    destruct ok.
    + destruct (Hyes eq_refl) as [Hle [Himp [b [d [Hs [Ht Hcase]]]]]].
      assert (Hf : feasible_count (true :: oks') = 1 + feasible_count oks').
      { unfold feasible_count. simpl length. lia. }
      assert (Hi : infeasible_count (true :: oks') = infeasible_count oks')
        by reflexivity.
      rewrite Hf, Hi. split; [intros Hlt; lia|].
      split; [intros Hge; rewrite (Hpile Hge); lia|].
      intros H0. specialize (Hbnd H0). pose proof (feasible_count_nonneg oks').
      destruct Hcase as [[-> Hd]|[-> ->]]; nia.
    + destruct (Hno eq_refl) as [Hs [Ht [Hifew Hige]]].
      assert (Hf : feasible_count (false :: oks') = feasible_count oks') by reflexivity.
      assert (Hi : infeasible_count (false :: oks') = 1 + infeasible_count oks').
      { unfold infeasible_count. simpl length. lia. }
      rewrite Hf, Hi. split; [|split].
      * intros Hlt. destruct (Hfew Hlt) as [H1 [H2 [H3 H4]]].
        rewrite H1, H2, H3, H4, (Hifew Hlt), Hs, Ht. tauto.
      * intros Hge. rewrite (Hpile Hge), (Hige Hge). lia.
      * intros H0. specialize (Hbnd H0). lia.
Qed.

(** ** Initialization *)

Lemma load_counts_inv (parts_clean : list Z) (lts : list string) :
  forall index st st',
  load_counts index lts parts_clean st = OK (tt, st') ->
  cursor st' = cursor st /\
  deck_colors (self st') = deck_colors (self st) /\
  successful (self st') = successful (self st) /\
  impossible (self st') = impossible (self st) /\
  total_tries (self st') = total_tries (self st) /\
  draw_pile (self st') = draw_pile (self st) /\
  n_of_simulations (self st') = n_of_simulations (self st) /\
  max_tap_tries (self st') = max_tap_tries (self st).
Proof.
  induction lts as [|land_type lts IH]; intros index st st' H.
  - injection H as <-. tauto.
  - cbn [load_counts] in H.
    destruct (nth_error parts_clean index) as [v|]; [|discriminate].
    apply bind_OK in H. destruct H as [[] [st1 [Hmod H]]].
    unfold modify_self in Hmod. injection Hmod as <-.
    apply IH in H. simpl in H. exact H.
Qed.

(** Every successful [initialize] leaves the three counters at zero and a
    colour identity in place; the settings and the oracle are untouched. *)
Lemma initialize_inv (parts_clean : list Z) (st st0 : state) :
  initialize parts_clean st = OK (tt, st0) ->
  successful (self st0) = 0 /\
  impossible (self st0) = 0 /\
  total_tries (self st0) = 0 /\
  (exists dc, deck_colors (self st0) = Some dc) /\
  n_of_simulations (self st0) = n_of_simulations (self st) /\
  max_tap_tries (self st0) = max_tap_tries (self st) /\
  cursor st0 = cursor st.
Proof.
  unfold initialize. intros H.
  apply bind_OK in H. destruct H as [[] [st1 [Hreset H]]].
  apply bind_OK in H. destruct H as [[] [st2 [Hload Hcol]]].
  unfold reset, bind, modify_self in Hreset. injection Hreset as <-.
  unfold load_deck in Hload.
  apply bind_OK in Hload. destruct Hload as [o [st3 [Hget Hload]]].
  unfold get_self in Hget. injection Hget as <- <-.
  apply bind_OK in Hload. destruct Hload as [[] [st4 [Hcnt Hpile]]].
  apply load_counts_inv in Hcnt. simpl in Hcnt.
  unfold modify_self in Hpile. injection Hpile as <-.
  rewrite get_color_id_run in Hcol. injection Hcol as <-. simpl.
  destruct Hcnt as [Hc [_ [Hs [Hi [Ht [_ [Hn Hm]]]]]]].
  repeat split; try assumption. now eexists.
Qed.

(** ** The report *)

Lemma Qeq_bool_inject_Z (z : Z) : Qeq_bool (inject_Z z) 0 = (z =? 0).
Proof. unfold Qeq_bool. simpl. now rewrite Z.mul_1_r. Qed.

Lemma report_run (round2 : Q -> Q) (st : state) :
  report round2 st =
  if (n_of_simulations (self st) - impossible (self st) =? 0) then Raise ZeroDivisionError
  else if (n_of_simulations (self st) =? 0) then Raise ZeroDivisionError
  else OK ((round2 (inject_Z (total_tries (self st)) /
                    inject_Z (n_of_simulations (self st) - impossible (self st)))%Q,
            round2 (inject_Z (successful (self st)) * 100 /
                    inject_Z (n_of_simulations (self st)))%Q), st).
Proof.
  unfold report, bind, get_self, true_div. rewrite !Qeq_bool_inject_Z.
  destruct (n_of_simulations (self st) - impossible (self st) =? 0); [reflexivity|].
  unfold ret. destruct (n_of_simulations (self st) =? 0); reflexivity.
Qed.

Lemma run_simulation_unfold (rand : nat -> nat) (round2 : Q -> Q)
      (parts_clean : list Z) (n_of_lands : Z) (st : state) :
  run_simulation rand round2 parts_clean n_of_lands st =
  match initialize parts_clean st with
  | OK (_, st0) =>
      match trials rand (Z.to_nat (n_of_simulations (self st0))) n_of_lands st0 with
      | OK (_, st1) => report round2 st1
      | Raise e => Raise e
      end
  | Raise e => Raise e
  end.
Proof.
  unfold run_simulation, bind at 1.
  destruct (initialize parts_clean st) as [[[] st0]|e]; [|reflexivity].
  unfold bind at 1, get_self. unfold bind at 1.
  destruct (trials rand _ n_of_lands st0) as [[oks st1]|e]; reflexivity.
Qed.

(** A completed run went through its three stages. *)
Lemma run_simulation_inv (rand : nat -> nat) (round2 : Q -> Q)
      (parts_clean : list Z) (n_of_lands : Z) (st : state) (r : Q * Q) (st' : state) :
  run_simulation rand round2 parts_clean n_of_lands st = OK (r, st') ->
  exists st0 oks,
    initialize parts_clean st = OK (tt, st0) /\
    trials rand (Z.to_nat (n_of_simulations (self st0))) n_of_lands st0 = OK (oks, st') /\
    report round2 st' = OK (r, st').
Proof.
  rewrite run_simulation_unfold.
  destruct (initialize parts_clean st) as [[[] st0]|e]; [|discriminate].
  destruct (trials rand _ n_of_lands st0) as [[oks st1]|e] eqn:Htr; [|discriminate].
  intros H. assert (Hst : st1 = st').
  { rewrite report_run in H.
    destruct (_ =? 0); [discriminate|]. destruct (_ =? 0); [discriminate|].
    now injection H. }
  subst st1. now exists st0, oks.
Qed.

(** ** Rational arithmetic of the two statistics *)

Lemma Qdiv_inject_bounds (a b m : Z) :
  0 < b -> 0 <= a <= m * b ->
  (0 <= inject_Z a / inject_Z b /\ inject_Z a / inject_Z b <= inject_Z m)%Q.
Proof.
  intros Hb [Ha Hab].
  assert (HbQ : (0 < inject_Z b)%Q).
  { change 0%Q with (inject_Z 0). now rewrite <- Zlt_Qlt. }
  split.
  - apply Qle_shift_div_l; [assumption|]. rewrite Qmult_0_l.
    change 0%Q with (inject_Z 0). now rewrite <- Zle_Qle.
  - apply Qle_shift_div_r; [assumption|].
    rewrite <- inject_Z_mult. now rewrite <- Zle_Qle.
Qed.

Lemma Qdiv_zero_num (b : Z) : (inject_Z 0 / inject_Z b == 0)%Q.
Proof. unfold Qdiv. now rewrite Qmult_0_l. Qed.

Lemma round2_nearest_mono (x y : Q) :
  (x <= y)%Q -> (round2_nearest x <= round2_nearest y)%Q.
Proof.
  unfold round2_nearest, Qle. simpl. intros H.
  destruct x as [nx dx], y as [ny dy]. simpl in *.
  apply Z.mul_le_mono_nonneg_r; [lia|].
  apply Z.div_le_lower_bound; [lia|].
  pose proof (Z.mul_div_le (200 * nx + Z.pos dx) (2 * Z.pos dx) ltac:(lia)) as Hq.
  set (q := (200 * nx + Z.pos dx) / (2 * Z.pos dx)) in *.
  assert (Hmul : Z.pos dx * (2 * Z.pos dy * q) <= Z.pos dx * (200 * ny + Z.pos dy)).
  { transitivity ((200 * nx + Z.pos dx) * Z.pos dy).
    - replace (Z.pos dx * (2 * Z.pos dy * q)) with (2 * Z.pos dx * q * Z.pos dy) by ring.
      apply Z.mul_le_mono_nonneg_r; [lia | assumption].
    - replace ((200 * nx + Z.pos dx) * Z.pos dy)
        with (200 * (nx * Z.pos dy) + Z.pos dx * Z.pos dy) by ring.
      replace (Z.pos dx * (200 * ny + Z.pos dy))
        with (200 * (ny * Z.pos dx) + Z.pos dx * Z.pos dy) by ring.
      lia. }
  apply Z.mul_le_mono_pos_l in Hmul; [assumption | lia].
Qed.

Lemma round2_nearest_int (z : Z) : (round2_nearest (inject_Z z) == inject_Z z)%Q.
Proof.
  unfold round2_nearest, Qeq.
  cbn [Qnum Qden inject_Z].
  replace (200 * z + 1) with (1 + (100 * z) * 2) by lia.
  change (2 * 1) with 2.
  rewrite Z.div_add by lia. change (1 / 2) with 0. lia.
Qed.

(** * The claims *)

(** ** C1: what counts as a successful tap attempt *)

(** The source compares lengths, [len(available) == len(self.deck_colors)].
    When every symbol tapped is a required colour, this is the equality of the
    two sets. *)
Lemma length_eq_same_colors (available dc : list ascii) :
  NoDup available -> NoDup dc -> incl available dc ->
  (length available = length dc <-> same_colors available dc).
Proof.
  intros Hna Hnd Hincl. unfold same_colors. split.
  - intros Hlen c. split; [apply Hincl|].
    apply (NoDup_length_incl Hna); [lia | assumption].
  - intros Hsame. apply Nat.le_antisymm.
    + now apply NoDup_incl_length.
    + apply NoDup_incl_length; [assumption|]. intros c Hc. now apply Hsame.
Qed.

(** For a hand whose labels only show required colours (so no C land, whose
    symbol is never required), an attempt passes the length test exactly
    when the colours produced are the required colour set. *)
Lemma attempt_success_iff_all_colors (rand : nat -> nat) (draws : list string)
      (dc available : list ascii) (st st' : state) :
  deck_colors (self st) = Some dc -> NoDup dc ->
  incl (hand_symbols draws) dc ->
  tap_lands rand draws [] st = OK (available, st') ->
  (Nat.eqb (length available) (length dc) = true <-> same_colors available dc).
Proof.
  intros Hdc Hnd Hsym Hrun. apply tap_lands_inv in Hrun.
  destruct Hrun as [_ [Hna Hin]]. rewrite Nat.eqb_eq.
  apply length_eq_same_colors; [apply Hna; constructor | assumption |].
  intros c Hc. destruct (Hin c Hc) as [[]|[draw [Hd [[_ [dc' [Hdc' Hc']]]|[_ Hc']]]]].
  - rewrite Hdc in Hdc'. now injection Hdc' as <-.
  - apply Hsym. unfold hand_symbols. apply in_flat_map. now exists draw.
Qed.

(** C1 (the code departs from the claim): with required colours W and U and
    the hand WU, WU, C, the attempt that taps W, W and C produces the
    distinct symbols W and C.  They are not the required colour set, since U
    is missing, yet the length test passes and the search records a success
    on attempt 0. *)
Theorem C1_success_without_all_colors :
  exists st0 st1 st2,
    initialize (deck_file [("WU", 2); ("C", 1)]) (start (analyzer 1 50)) = OK (tt, st0) /\
    deck_colors (self st0) = Some ["W"; "U"]%char /\
    draw_pile (self st0) = ["WU"; "WU"; "C"] /\
    check_availability ["WU"; "WU"; "C"] st0 = OK (true, st0) /\
    tap_lands (oracle_of []) ["WU"; "WU"; "C"] [] st0 = OK (["W"; "C"]%char, st1) /\
    ~ same_colors ["W"; "C"]%char ["W"; "U"]%char /\
    analyze_tap_options (oracle_of []) ["WU"; "WU"; "C"] st0 = OK (tt, st2) /\
    successful (self st2) = successful (self st0) + 1 /\
    total_tries (self st2) = total_tries (self st0) + 0.
Proof.
  do 3 eexists.
  split; [vm_compute; reflexivity|].
  split; [reflexivity|]. split; [reflexivity|].
  split; [vm_compute; reflexivity|].
  split; [vm_compute; reflexivity|].
  split.
  - intros H. destruct (proj2 (H "U"%char)) as [Hu|[Hu|[]]]; [simpl; tauto | |]; discriminate.
  - split; [vm_compute; reflexivity|]. split; reflexivity.
Qed.

(** ** C2: a hand with too few lands *)

(** C2 (the code departs from the claim): with three required colours and
    hands of two lands, both trials of the run are turned down by the
    feasibility check, and [impossible] is still 0 when the run ends: the
    two infeasible trials are not counted, and the run reports an average of
    0.00 attempts. *)
Theorem C2_too_few_lands_not_counted :
  exists st0 st1,
    initialize (deck_file [("W", 1); ("U", 1); ("B", 1)]) (start (analyzer 2 50))
      = OK (tt, st0) /\
    deck_colors (self st0) = Some ["W"; "U"; "B"]%char /\
    hand_size 2 (self st0) = 2%nat /\
    trials (oracle_of []) 2 2 st0 = OK ([false; false], st1) /\
    infeasible_count [false; false] = 2 /\
    impossible (self st1) = 0 /\
    run_simulation (oracle_of []) round2_nearest
                   (deck_file [("W", 1); ("U", 1); ("B", 1)]) 2 (start (analyzer 2 50))
      = OK ((0 # 100, 0 # 100)%Q, st1).
Proof.
  do 2 eexists.
  split; [vm_compute; reflexivity|].
  split; [reflexivity|]. split; [reflexivity|].
  split; [vm_compute; reflexivity|].
  split; [reflexivity|]. split; [reflexivity|].
  vm_compute. reflexivity.
Qed.

(** ** C3: the required colour set *)

(** C3, counterexample: a land base whose only lands are of the label WUBRG
    is valid, its label WUBRG has a nonzero count and shows the symbol W, but
    the derived colour identity is empty. *)
Lemma C3_counterexample :
  exists st0,
    initialize (deck_file [("WUBRG", 1)]) (start init) = OK (tt, st0) /\
    valid_land_base (land_base (self st0)) /\
    deck_colors (self st0) = Some [] /\
    ~ (forall c, In c [] <-> spec_color_union (land_base (self st0)) c).
Proof.
  eexists. split; [vm_compute; reflexivity|].
  split.
  - apply (valid_land_base_of (deck_file [("WUBRG", 1)])).
    vm_compute. repeat constructor; discriminate.
  - split; [reflexivity|].
    intros H. apply (proj2 (H "W"%char)). split; [discriminate|].
    exists "WUBRG", 1. split; [|split; [discriminate | simpl; tauto]].
    simpl. do 25 right. now left.
Qed.

(** C3, amended: for every valid land base, the colour identity that
    [get_color_id] stores has no repetition, at most 5 elements, and is the
    union of the symbols of the labels with a nonzero count other than the
    label WUBRG, the symbol C apart. *)
Theorem C3_required_colors (st : state) :
  valid_land_base (land_base (self st)) ->
  exists dc,
    get_color_id st =
      OK (tt, mkState (set_deck_colors (Some dc) (self st)) (cursor st)) /\
    NoDup dc /\
    (length dc <= 5)%nat /\
    forall c, In c dc <-> color_union (land_base (self st)) c.
Proof.
  intros Hv. exists (color_id_loop (land_base (self st)) []).
  split; [apply get_color_id_run|].
  assert (Hnd : NoDup (color_id_loop (land_base (self st)) []))
    by (apply color_id_loop_NoDup; constructor).
  assert (Hin : forall c, In c (color_id_loop (land_base (self st)) []) <->
                          color_union (land_base (self st)) c).
  { intros c. rewrite (color_id_loop_In _ Hv [] (NoDup_nil _) (incl_nil_l _) c).
    simpl. tauto. }
  split; [assumption|]. split; [|assumption].
  change 5%nat with (length colors5). apply NoDup_incl_length; [assumption|].
  intros c Hc. apply Hin in Hc. destruct Hc as [Hn [land [number [Hl [_ [_ Hs]]]]]].
  apply (land_type_symbols land); [apply (Hv land number Hl) | assumption | assumption].
Qed.

Lemma C3_required_colors_witness :
  exists dc,
    get_color_id
      (mkState (set_land_base (land_base_of (deck_file [("W", 8); ("RG", 3); ("WUBRG", 2); ("C", 4)]))
                              init) 0)
    = OK (tt, mkState
                (set_deck_colors (Some dc)
                   (set_land_base
                      (land_base_of (deck_file [("W", 8); ("RG", 3); ("WUBRG", 2); ("C", 4)]))
                      init)) 0) /\
    NoDup dc /\
    (length dc <= 5)%nat /\
    forall c, In c dc <->
              color_union
                (land_base_of (deck_file [("W", 8); ("RG", 3); ("WUBRG", 2); ("C", 4)])) c.
Proof.
  apply (C3_required_colors
           (mkState (set_land_base
                       (land_base_of (deck_file [("W", 8); ("RG", 3); ("WUBRG", 2); ("C", 4)]))
                       init) 0)).
  apply valid_land_base_of. vm_compute. repeat constructor; discriminate.
Defined.

(** ** C4: what a C land taps for *)

Lemma hand_symbols_without_C (draws : list string) (c : ascii) :
  c <> "C"%char ->
  In c (hand_symbols draws) ->
  In c (hand_symbols (filter (fun draw => negb (String.eqb draw "C")) draws)).
Proof.
  intros Hc. unfold hand_symbols. rewrite !in_flat_map.
  intros [draw [Hd Hs]]. exists draw. split; [|assumption].
  apply filter_In. split; [assumption|].
  destruct (String.eqb draw "C") eqn:He; [|reflexivity].
  apply String.eqb_eq in He. subst draw. simpl in Hs. intuition congruence.
Qed.

(** C4, counterexample: with required colours W and U, the colour tapped
    from a drawn C land is the symbol C, which is not a required colour. *)
Lemma C4_counterexample :
  exists st0 st1,
    initialize (deck_file [("WU", 2); ("C", 1)]) (start init) = OK (tt, st0) /\
    deck_colors (self st0) = Some ["W"; "U"]%char /\
    tap_land (oracle_of []) "C" st0 = OK ("C"%char, st1) /\
    ~ In "C"%char ["W"; "U"]%char.
Proof.
  do 2 eexists.
  split; [vm_compute; reflexivity|]. split; [reflexivity|].
  split; [vm_compute; reflexivity|].
  simpl. intuition discriminate.
Qed.

(** C4, amended: in every tap attempt a drawn C land taps for the symbol C
    itself, and C is never in the colour identity that [get_color_id]
    derives; the land whose tapped colour is always a member of the required
    colour set is the one of the five-colour label WUBRG.  A hand in which a
    required colour shows on no land other than C lands does not pass the
    feasibility check, so it never reaches the tap search. *)
Theorem C4_tapped_colors (rand : nat -> nat) (st : state) :
  tap_land rand "C" st = OK ("C"%char, mkState (self st) (S (cursor st))) /\
  (forall lb, ~ In "C"%char (color_id_loop lb [])) /\
  (forall c st',
     tap_land rand "WUBRG" st = OK (c, st') ->
     exists dc, deck_colors (self st) = Some dc /\ In c dc) /\
  (forall dc draws c,
     deck_colors (self st) = Some dc ->
     In c dc -> c <> "C"%char ->
     ~ In c (hand_symbols (filter (fun draw => negb (String.eqb draw "C")) draws)) ->
     exists st', check_availability draws st = OK (false, st')).
Proof.
  split; [reflexivity|].
  split; [intros lb; apply color_id_loop_no_C; simpl; tauto|].
  split.
  - intros c st' H. apply tap_land_inv in H.
    destruct H as [_ [[_ H]|[H _]]]; [exact H | now elim H].
  - intros dc draws c Hdc Hin Hc Hout.
    assert (Hmiss : ~ In c (hand_symbols draws)).
    { intros H. apply Hout. now apply hand_symbols_without_C. }
    destruct (Nat.ltb (length draws) (length dc)) eqn:Hlen.
    + apply Nat.ltb_lt in Hlen. exists st.
      now apply (check_availability_too_few draws dc).
    + apply Nat.ltb_ge in Hlen. eexists.
      now apply (check_availability_missing draws dc st c).
Qed.

Lemma C4_tapped_colors_witness :
  (exists dc,
     deck_colors (self (mkState (set_deck_colors (Some ["W"; "U"]%char) init) 0)) = Some dc /\
     In "W"%char dc) /\
  (exists st',
     check_availability ["W"; "C"; "C"]
                        (mkState (set_deck_colors (Some ["W"; "U"]%char) init) 0)
     = OK (false, st')).
Proof.
  pose proof (C4_tapped_colors (oracle_of [])
                (mkState (set_deck_colors (Some ["W"; "U"]%char) init) 0))
    as [_ [_ [Hwubrg Hcheck]]].
  split.
  - apply (Hwubrg "W"%char (mkState (set_deck_colors (Some ["W"; "U"]%char) init) 1)).
    vm_compute. reflexivity.
  - apply (Hcheck ["W"; "U"]%char ["W"; "C"; "C"] "U"%char).
    + reflexivity.
    + simpl. tauto.
    + discriminate.
    + vm_compute. intuition discriminate.
Defined.

(** ** C5: the two statistics *)

(** The counters when the trial loop ends, for a run in which some trial
    passed the feasibility check. *)
Lemma run_counters (rand : nat -> nat) (parts_clean : list Z) (n_of_lands : Z)
      (st st0 st1 : state) (oks : list bool) :
  initialize parts_clean st = OK (tt, st0) ->
  trials rand (Z.to_nat (n_of_simulations (self st0))) n_of_lands st0 = OK (oks, st1) ->
  In true oks ->
  n_of_simulations (self st1) = n_of_simulations (self st0) /\
  n_of_simulations (self st0) = Z.of_nat (length oks) /\
  impossible (self st1) = infeasible_count oks /\
  n_of_simulations (self st0) - infeasible_count oks = feasible_count oks /\
  0 < feasible_count oks.
Proof.
  intros Hinit Htrials Htrue.
  destruct (initialize_inv _ _ _ Hinit) as [_ [Himp [_ [[dc Hdc] _]]]].
  destruct (trials_inv rand n_of_lands dc _ st0 oks st1 Hdc Htrials)
    as [Hset [Hlen [Hfew [Hpile _]]]].
  pose proof (feasible_count_pos oks Htrue) as Hpos.
  pose proof (feasible_infeasible oks) as Hsum.
  assert (Hn : n_of_simulations (self st0) = Z.of_nat (length oks)).
  { destruct oks as [|ok oks]; [contradiction|]. simpl length in *. lia. }
  assert (Hns : n_of_simulations (self st1) = n_of_simulations (self st0))
    by (unfold same_setup in Hset; tauto).
  destruct (Nat.ltb (hand_size n_of_lands (self st0)) (length dc)) eqn:Hcmp.
  - apply Nat.ltb_lt in Hcmp. destruct (Hfew Hcmp) as [H0 _]. lia.
  - apply Nat.ltb_ge in Hcmp. specialize (Hpile Hcmp).
    repeat split; lia.
Qed.

(** C5: a run in which at least one trial is not infeasible completes, and
    reports the cumulative attempts divided by the number of trials less the
    number of infeasible trials, and 100 times the successes divided by the
    number of trials, each rounded to two decimals; the divisor of the first
    is the counter [impossible] subtracted from the number of trials. *)
Theorem C5_statistics (rand : nat -> nat) (round2 : Q -> Q)
        (parts_clean : list Z) (n_of_lands : Z) (st st0 st1 : state) (oks : list bool) :
  initialize parts_clean st = OK (tt, st0) ->
  trials rand (Z.to_nat (n_of_simulations (self st0))) n_of_lands st0 = OK (oks, st1) ->
  In true oks ->
  impossible (self st1) = infeasible_count oks /\
  run_simulation rand round2 parts_clean n_of_lands st =
  OK ((round2 (inject_Z (total_tries (self st1)) /
               inject_Z (n_of_simulations (self st0) - infeasible_count oks))%Q,
       round2 (inject_Z (successful (self st1)) * 100 /
               inject_Z (n_of_simulations (self st0)))%Q),
      st1).
Proof.
  intros Hinit Htrials Htrue.
  destruct (run_counters rand parts_clean n_of_lands st st0 st1 oks Hinit Htrials Htrue)
    as [Hns [Hn [Himp [Hdiv Hpos]]]].
  split; [assumption|].
  rewrite run_simulation_unfold, Hinit, Htrials, report_run, Hns, Himp.
  destruct (n_of_simulations (self st0) - infeasible_count oks =? 0) eqn:H1;
    [apply Z.eqb_eq in H1; lia|].
  destruct (n_of_simulations (self st0) =? 0) eqn:H2; [|reflexivity].
  apply Z.eqb_eq in H2. pose proof (feasible_infeasible oks).
  unfold infeasible_count in *. lia.
Qed.

Lemma C5_statistics_witness :
  exists st1,
    impossible (self st1) = 0 /\
    run_simulation (oracle_of [0; 0; 1; 1; 0; 0; 0; 1]%nat) round2_nearest
                   (deck_file [("WU", 2)]) 2 (start (analyzer 3 50))
    = OK ((round2_nearest (inject_Z 51 / inject_Z (3 - 0)),
           round2_nearest (inject_Z 2 * 100 / inject_Z 3))%Q, st1).
Proof.
  exists (state_after
            (trials (oracle_of [0; 0; 1; 1; 0; 0; 0; 1]%nat) 3 2
               (state_after (initialize (deck_file [("WU", 2)]) (start (analyzer 3 50)))))).
  apply (C5_statistics (oracle_of [0; 0; 1; 1; 0; 0; 0; 1]%nat) round2_nearest
           (deck_file [("WU", 2)]) 2 (start (analyzer 3 50))
           (state_after (initialize (deck_file [("WU", 2)]) (start (analyzer 3 50))))
           (state_after
              (trials (oracle_of [0; 0; 1; 1; 0; 0; 0; 1]%nat) 3 2
                 (state_after (initialize (deck_file [("WU", 2)]) (start (analyzer 3 50))))))
           [true; true; true]).
  - vm_compute. reflexivity.
  - vm_compute. reflexivity.
  - simpl. tauto.
Defined.

(** ** C6: a run whose trials are all infeasible *)

(** C6, counterexample: with the lands W, W, U and hands of two lands, the
    two trials of this run draw W, W; both are counted infeasible, and the run
    ends in the uncaught ZeroDivisionError of the average's division. *)
Lemma C6_counterexample :
  exists st0 st1,
    initialize (deck_file [("W", 2); ("U", 1)]) (start (analyzer 2 50)) = OK (tt, st0) /\
    trials (oracle_of [2; 1; 2; 1]%nat) 2 2 st0 = OK ([false; false], st1) /\
    impossible (self st1) = n_of_simulations (self st1) /\
    run_simulation (oracle_of [2; 1; 2; 1]%nat) round2_nearest
                   (deck_file [("W", 2); ("U", 1)]) 2 (start (analyzer 2 50))
    = Raise ZeroDivisionError.
Proof.
  do 2 eexists.
  split; [vm_compute; reflexivity|].
  split; [vm_compute; reflexivity|].
  split; [reflexivity|].
  vm_compute. reflexivity.
Qed.

(** C6, amended: the engine has no check for the degenerate run.  In every
    run whose trial loop ends with [impossible] equal to the number of
    trials, the division of the average attempts is a division by zero: the
    run raises ZeroDivisionError and reports no statistic. *)
Theorem C6_all_infeasible_raises (rand : nat -> nat) (round2 : Q -> Q)
        (parts_clean : list Z) (n_of_lands : Z) (st st0 st1 : state) (oks : list bool) :
  initialize parts_clean st = OK (tt, st0) ->
  trials rand (Z.to_nat (n_of_simulations (self st0))) n_of_lands st0 = OK (oks, st1) ->
  impossible (self st1) = n_of_simulations (self st1) ->
  run_simulation rand round2 parts_clean n_of_lands st = Raise ZeroDivisionError.
Proof.
  intros Hinit Htrials Hall.
  rewrite run_simulation_unfold, Hinit, Htrials, report_run, Hall, Z.sub_diag.
  reflexivity.
Qed.

Lemma C6_all_infeasible_raises_witness :
  run_simulation (oracle_of [2; 1; 2; 1]%nat) round2_nearest
                 (deck_file [("W", 2); ("U", 1)]) 2 (start (analyzer 2 50))
  = Raise ZeroDivisionError.
Proof.
  apply (C6_all_infeasible_raises (oracle_of [2; 1; 2; 1]%nat) round2_nearest
           (deck_file [("W", 2); ("U", 1)]) 2 (start (analyzer 2 50))
           (state_after (initialize (deck_file [("W", 2); ("U", 1)]) (start (analyzer 2 50))))
           (state_after
              (trials (oracle_of [2; 1; 2; 1]%nat) 2 2
                 (state_after (initialize (deck_file [("W", 2); ("U", 1)])
                                          (start (analyzer 2 50))))))
           [false; false]).
  - vm_compute. reflexivity.
  - vm_compute. reflexivity.
  - reflexivity.
Defined.

(** ** C7: the draw pile and the counters after initialization *)

Lemma NoDup_LAND_TYPES : NoDup LAND_TYPES.
Proof.
  unfold LAND_TYPES.
  repeat (constructor; [simpl; intuition discriminate|]). constructor.
Qed.

Lemma NoDup_keys_combine (keys : list string) :
  NoDup keys -> forall (vals : list Z), NoDup (map fst (combine keys vals)).
Proof.
  induction 1 as [|k keys Hk Hnd IH]; intros vals; simpl; [constructor|].
  destruct vals as [|v vals]; simpl; constructor; [|apply IH].
  intros Hin. apply Hk. apply in_map_iff in Hin. destruct Hin as [[k' v'] [<- Hin]].
  simpl. exact (in_combine_l _ _ _ _ Hin).
Qed.

(** The first call on a fresh analyzer: the draw pile holds each label
    exactly its count many times, its length is the sum of the counts, and
    the three counters are zero. *)
Lemma initialize_first_call (parts_clean : list Z) (o : ManaAnalyzer) (cur : nat) :
  land_types o = LAND_TYPES -> land_base o = [] -> draw_pile o = [] ->
  (27 <= length parts_clean)%nat ->
  Forall (fun v => 0 <= v) parts_clean ->
  exists st0,
    initialize parts_clean (mkState o cur) = OK (tt, st0) /\
    land_base (self st0) = land_base_of parts_clean /\
    draw_pile (self st0) = pile_of (land_base (self st0)) /\
    (forall land number, In (land, number) (land_base (self st0)) ->
       count_occ string_dec (draw_pile (self st0)) land = Z.to_nat number) /\
    Z.of_nat (length (draw_pile (self st0))) = total_lands (land_base (self st0)) /\
    successful (self st0) = 0 /\ impossible (self st0) = 0 /\ total_tries (self st0) = 0.
Proof.
  intros Hlt Hlb Hdp Hlen Hpos.
  eexists. split; [apply initialize_fresh; assumption|].
  cbn [self land_base draw_pile successful impossible total_tries]. rewrite Hdp.
  cbn [app].
  split; [reflexivity|]. split; [reflexivity|]. split; [|split; [|tauto]].
  - intros land number Hin. apply pile_of_count; [|assumption].
    apply NoDup_keys_combine, NoDup_LAND_TYPES.
  - apply pile_of_length. intros land number Hin.
    exact (proj2 (valid_land_base_of parts_clean Hpos land number Hin)).
Qed.

(** C7 (the code departs from the claim): [reset] does not empty the draw
    pile and [load_deck] appends to it.  After a first run on a deck file
    with the single land W, the initialization of a second run on the same
    analyzer leaves the pile W, W, of length 2, while the counts of the land
    base sum to 1; the three counters do start at zero. *)
Theorem C7_second_run_pile_doubles :
  exists r1 st1 st2,
    run_simulation (oracle_of []) round2_nearest (deck_file [("W", 1)]) 1
                   (start (analyzer 1 50)) = OK (r1, st1) /\
    draw_pile (self st1) = ["W"] /\
    initialize (deck_file [("W", 1)]) st1 = OK (tt, st2) /\
    draw_pile (self st2) = ["W"; "W"] /\
    count_occ string_dec (draw_pile (self st2)) "W" = 2%nat /\
    In ("W", 1) (land_base (self st2)) /\
    total_lands (land_base (self st2)) = 1 /\
    Z.of_nat (length (draw_pile (self st2))) <> total_lands (land_base (self st2)) /\
    successful (self st2) = 0 /\ impossible (self st2) = 0 /\ total_tries (self st2) = 0.
Proof.
  do 3 eexists.
  split; [vm_compute; reflexivity|].
  split; [reflexivity|].
  split; [vm_compute; reflexivity|].
  split; [reflexivity|]. split; [reflexivity|].
  split; [simpl; tauto|].
  split; [reflexivity|]. split; [discriminate|]. repeat split.
Qed.

(** ** C8: a hand size beyond the draw pile *)

Lemma trial_draw_pile (rand : nat -> nat) (n_of_lands : Z) (st : state) (ok : bool) (st' : state) :
  trial rand n_of_lands st = OK (ok, st') ->
  draw_pile (self st') = draw_pile (self st).
Proof.
  intros H. destruct (deck_colors (self st)) as [dc|] eqn:Hdc.
  - destruct (trial_inv rand n_of_lands st dc ok st' Hdc H) as [Hset _].
    unfold same_setup in Hset. tauto.
  - exfalso.
    destruct (trial_unfold rand n_of_lands st) as [deck [st1 [_ [_ [Hself Heq]]]]].
    rewrite Heq in H. unfold bind at 1 in H.
    unfold check_availability, read_deck_colors, bind, get_self in H.
    rewrite Hself, Hdc in H. discriminate.
Qed.

Lemma trial_oversized (rand : nat -> nat) (n_of_lands : Z) (st : state) :
  Z.of_nat (length (draw_pile (self st))) <= n_of_lands ->
  trial rand n_of_lands st = trial rand (Z.of_nat (length (draw_pile (self st)))) st.
Proof.
  intros Hle.
  destruct (trial_unfold rand n_of_lands st) as [deck [st1 [Hsh [Hlen [_ Heq]]]]].
  destruct (trial_unfold rand (Z.of_nat (length (draw_pile (self st)))) st)
    as [deck' [st1' [Hsh' [_ [_ Heq']]]]].
  rewrite Hsh in Hsh'. injection Hsh' as <- <-.
  rewrite Heq, Heq', !slice_to_all by lia. reflexivity.
Qed.

Lemma trials_S (rand : nat -> nat) (n_of_lands : Z) (k : nat) (st : state) :
  trials rand (S k) n_of_lands st =
  match trial rand n_of_lands st with
  | OK (ok, st1) =>
      match trials rand k n_of_lands st1 with
      | OK (oks, st2) => OK (ok :: oks, st2)
      | Raise e => Raise e
      end
  | Raise e => Raise e
  end.
Proof.
  cbn [trials]. unfold bind at 1.
  destruct (trial rand n_of_lands st) as [[ok st1]|e]; [|reflexivity].
  unfold bind. destruct (trials rand k n_of_lands st1) as [[oks st2]|e]; reflexivity.
Qed.

Lemma trials_oversized (rand : nat -> nat) (n_of_lands : Z) (k : nat) :
  forall st,
  Z.of_nat (length (draw_pile (self st))) <= n_of_lands ->
  trials rand k n_of_lands st =
  trials rand k (Z.of_nat (length (draw_pile (self st)))) st.
Proof.
  induction k as [|k IH]; intros st Hle; [reflexivity|].
  rewrite !trials_S, (trial_oversized rand n_of_lands st Hle).
  destruct (trial rand (Z.of_nat (length (draw_pile (self st)))) st)
    as [[ok st1]|e] eqn:Htrial; [|reflexivity].
  apply trial_draw_pile in Htrial.
  rewrite (IH st1) by (rewrite Htrial; exact Hle).
  now rewrite Htrial.
Qed.

(** C8, counterexample: hands of 3 lands are asked from a pile of 1 land;
    the run is not rejected, its two trials execute (both pass the
    feasibility check) and two statistics are reported. *)
Lemma C8_counterexample :
  exists st0 st1,
    initialize (deck_file [("W", 1)]) (start (analyzer 2 50)) = OK (tt, st0) /\
    Z.of_nat (length (draw_pile (self st0))) < 3 /\
    trials (oracle_of []) 2 3 st0 = OK ([true; true], st1) /\
    run_simulation (oracle_of []) round2_nearest (deck_file [("W", 1)]) 3
                   (start (analyzer 2 50))
    = OK ((0 # 100, 10000 # 100)%Q, st1).
Proof.
  do 2 eexists.
  split; [vm_compute; reflexivity|].
  split; [vm_compute; reflexivity|].
  split; [vm_compute; reflexivity|].
  vm_compute. reflexivity.
Qed.

(** C8, amended: a hand size beyond the size of the draw pile is not
    rejected.  The slice of the shuffled pile is then the whole pile, and
    the run is, trial by trial and in its result, the run whose hand size is
    the size of the pile. *)
Theorem C8_oversized_hand_draws_whole_pile (rand : nat -> nat) (round2 : Q -> Q)
        (parts_clean : list Z) (n_of_lands : Z) (st st0 : state) :
  initialize parts_clean st = OK (tt, st0) ->
  Z.of_nat (length (draw_pile (self st0))) < n_of_lands ->
  run_simulation rand round2 parts_clean n_of_lands st =
  run_simulation rand round2 parts_clean (Z.of_nat (length (draw_pile (self st0)))) st.
Proof.
  intros Hinit Hlt.
  rewrite !run_simulation_unfold, Hinit.
  rewrite (trials_oversized rand n_of_lands _ st0) by lia.
  reflexivity.
Qed.

Lemma C8_oversized_hand_draws_whole_pile_witness :
  run_simulation (oracle_of []) round2_nearest (deck_file [("W", 1)]) 3
                 (start (analyzer 2 50))
  = run_simulation (oracle_of []) round2_nearest (deck_file [("W", 1)])
      (Z.of_nat
         (length
            (draw_pile
               (self (state_after (initialize (deck_file [("W", 1)]) (start (analyzer 2 50))))))))
      (start (analyzer 2 50)).
Proof.
  apply (C8_oversized_hand_draws_whole_pile (oracle_of []) round2_nearest
           (deck_file [("W", 1)]) 3 (start (analyzer 2 50))
           (state_after (initialize (deck_file [("W", 1)]) (start (analyzer 2 50))))).
  - vm_compute. reflexivity.
  - vm_compute. reflexivity.
Defined.

(** ** C9: the ranges of the two statistics *)

Lemma stat_bounds (a b m : Z) :
  0 <= m ->
  a = 0 \/ (0 < b /\ 0 <= a <= m * b) ->
  (inject_Z 0 <= inject_Z a / inject_Z b /\ inject_Z a / inject_Z b <= inject_Z m)%Q.
Proof.
  intros Hm [->|[Hb Ha]].
  - rewrite Qdiv_zero_num. split; [apply Qle_refl|].
    change 0%Q with (inject_Z 0). now rewrite <- Zle_Qle.
  - now apply Qdiv_inject_bounds.
Qed.

Section Rounding.

(** What is assumed of the rounding to two decimals: it is monotone, and it
    leaves integers as they are. *)
Variable round2 : Q -> Q.
Hypothesis round2_mono : forall x y : Q, (x <= y)%Q -> (round2 x <= round2 y)%Q.
Hypothesis round2_int : forall z : Z, (round2 (inject_Z z) == inject_Z z)%Q.

Lemma round2_bounds (x : Q) (lo hi : Z) :
  (inject_Z lo <= x /\ x <= inject_Z hi)%Q ->
  (inject_Z lo <= round2 x /\ round2 x <= inject_Z hi)%Q.
Proof.
  intros [Hlo Hhi]. split.
  - rewrite <- (round2_int lo). now apply round2_mono.
  - rewrite <- (round2_int hi). now apply round2_mono.
Qed.

(** C9: in every completed run, so in every run with a trial that is not
    infeasible, and for a cap on the attempts that is not negative, the
    reported success rate lies in [0, 100] and the reported average of the
    attempts lies in [0, max_tap_tries]. *)
Theorem C9_statistics_bounds (rand : nat -> nat) (parts_clean : list Z) (n_of_lands : Z)
        (st : state) (average_tries percentage : Q) (st' : state) :
  0 <= max_tap_tries (self st) ->
  run_simulation rand round2 parts_clean n_of_lands st
    = OK ((average_tries, percentage), st') ->
  (0 <= percentage /\ percentage <= 100)%Q /\
  (0 <= average_tries /\ average_tries <= inject_Z (max_tap_tries (self st)))%Q.
Proof.
  intros Hmax Hrun.
  apply run_simulation_inv in Hrun.
  destruct Hrun as [st0 [oks [Hinit [Htrials Hreport]]]].
  destruct (initialize_inv _ _ _ Hinit) as [Hs0 [Hi0 [Ht0 [[dc Hdc] [_ [Hm0 _]]]]]].
  destruct (trials_inv rand n_of_lands dc _ st0 oks st' Hdc Htrials)
    as [Hset [Hlen [Hfew [Hpile Hbnd]]]].
  rewrite Hm0 in Hbnd. destruct (Hbnd Hmax) as [Hsucc Htot]. clear Hbnd.
  assert (Hns : n_of_simulations (self st') = n_of_simulations (self st0))
    by (unfold same_setup in Hset; tauto).
  pose proof (feasible_infeasible oks) as Hsum.
  pose proof (feasible_count_nonneg oks) as Hf0.
  assert (Hi0' : 0 <= infeasible_count oks) by (unfold infeasible_count; lia).
  rewrite report_run in Hreport.
  destruct (n_of_simulations (self st') - impossible (self st') =? 0) eqn:Hd;
    [discriminate|].
  destruct (n_of_simulations (self st') =? 0) eqn:Hn; [discriminate|].
  apply Z.eqb_neq in Hd, Hn.
  injection Hreport as <- <-.
  set (N := n_of_simulations (self st0)) in *.
  assert (Hcase : feasible_count oks = 0 \/
                  (0 < feasible_count oks /\ 0 < N /\
                   N - impossible (self st') = feasible_count oks)).
  { destruct (Nat.ltb (hand_size n_of_lands (self st0)) (length dc)) eqn:Hcmp.
    - apply Nat.ltb_lt in Hcmp. left. now destruct (Hfew Hcmp).
    - apply Nat.ltb_ge in Hcmp. specialize (Hpile Hcmp).
      destruct (Z.eq_dec (feasible_count oks) 0) as [Hz|Hz]; [now left|].
      right. lia. }
  split.
  - change 0%Q with (inject_Z 0). change 100%Q with (inject_Z 100).
    apply round2_bounds. rewrite <- inject_Z_mult.
    apply stat_bounds; [lia|]. rewrite Hns.
    destruct Hcase as [Hz|[Hp [HN _]]]; [left; lia | right; lia].
  - change 0%Q with (inject_Z 0).
    apply round2_bounds. apply stat_bounds; [assumption|]. rewrite Hns.
    destruct Hcase as [Hz|[Hp [HN HD]]].
    + left. rewrite Hz in Htot. lia.
    + right. rewrite HD. split; [assumption|]. lia.
Qed.

End Rounding.

Lemma C9_statistics_bounds_witness :
  (0 <= round2_nearest (inject_Z 2 * 100 / inject_Z 3) /\
   round2_nearest (inject_Z 2 * 100 / inject_Z 3) <= 100)%Q /\
  (0 <= round2_nearest (inject_Z 51 / inject_Z (3 - 0)) /\
   round2_nearest (inject_Z 51 / inject_Z (3 - 0)) <= inject_Z 50)%Q.
Proof.
  apply (C9_statistics_bounds round2_nearest round2_nearest_mono round2_nearest_int
           (oracle_of [0; 0; 1; 1; 0; 0; 0; 1]%nat) (deck_file [("WU", 2)]) 2
           (start (analyzer 3 50))
           (round2_nearest (inject_Z 51 / inject_Z (3 - 0)))
           (round2_nearest (inject_Z 2 * 100 / inject_Z 3))
           (state_after
              (run_simulation (oracle_of [0; 0; 1; 1; 0; 0; 0; 1]%nat) round2_nearest
                 (deck_file [("WU", 2)]) 2 (start (analyzer 3 50))))).
  - vm_compute. discriminate.
  - vm_compute. reflexivity.
Defined.

(** ** C10: an empty colour identity *)

Lemma tap_land_raise (rand : nat -> nat) (draw : string) (dc : list ascii) (st : state) (e : exn) :
  deck_colors (self st) = Some dc ->
  tap_land rand draw st = Raise e -> e = IndexError.
Proof.
  intros Hdc. unfold tap_land.
  destruct (Nat.eqb (length (list_ascii_of_string draw)) 5).
  - unfold read_deck_colors, bind, get_self. rewrite Hdc. unfold ret.
    destruct dc as [|d dc]; [unfold choice, raise; congruence|].
    rewrite choice_cons. discriminate.
  - destruct (list_ascii_of_string draw) as [|d l];
      [unfold choice, raise; congruence|].
    rewrite choice_cons. discriminate.
Qed.

Lemma tap_land_WUBRG_empty (rand : nat -> nat) (st : state) :
  deck_colors (self st) = Some [] ->
  tap_land rand "WUBRG" st = Raise IndexError.
Proof.
  intros Hdc. unfold tap_land. simpl.
  unfold read_deck_colors, bind, get_self. now rewrite Hdc.
Qed.

(** With an empty colour identity, a hand that holds a WUBRG land cannot be
    tapped: the attempt ends in the IndexError of a choice from the empty
    list, at that land or at an earlier one. *)
Lemma tap_lands_WUBRG_empty (rand : nat -> nat) (draws : list string) :
  In "WUBRG" draws ->
  forall available st,
  deck_colors (self st) = Some [] ->
  tap_lands rand draws available st = Raise IndexError.
Proof.
  induction draws as [|draw draws IH]; intros Hin available st Hdc; [contradiction|].
  cbn [tap_lands]. unfold bind at 1.
  destruct (tap_land rand draw st) as [[tapped st1]|e] eqn:Htap.
  - assert (Hrest : In "WUBRG" draws).
    { destruct Hin as [->|Hin]; [|assumption].
      rewrite (tap_land_WUBRG_empty rand st Hdc) in Htap. discriminate. }
    apply tap_land_inv in Htap. destruct Htap as [-> _].
    destruct (negb (mem tapped available)); now apply IH.
  - now rewrite (tap_land_raise rand draw [] st e Hdc Htap).
Qed.

Lemma read_deck_colors_Some (st : state) (dc : list ascii) :
  deck_colors (self st) = Some dc -> read_deck_colors st = OK (dc, st).
Proof. intros H. unfold read_deck_colors, bind, get_self. now rewrite H. Qed.

Lemma range_pos (m : Z) : 1 <= m -> exists ns, range m = 0 :: ns.
Proof.
  intros Hm. unfold range.
  destruct (Z.to_nat m) as [|k] eqn:Hk; [lia|].
  simpl. now eexists.
Qed.

(** When the colour identity is empty, every hand passes the feasibility
    check and leaves the object as it was; if at least one attempt is
    allowed, the tap search of a hand that holds a WUBRG land raises
    IndexError, and the tap search of the empty hand succeeds on attempt 0. *)
Lemma empty_color_identity_search (rand : nat -> nat) (st : state) :
  deck_colors (self st) = Some [] ->
  (forall draws, check_availability draws st = OK (true, st)) /\
  (1 <= max_tap_tries (self st) ->
   forall draws, In "WUBRG" draws ->
     analyze_tap_options rand draws st = Raise IndexError) /\
  (1 <= max_tap_tries (self st) ->
   analyze_tap_options rand [] st =
   OK (tt, mkState (set_total_tries (total_tries (self st) + 0)
                      (set_successful (successful (self st) + 1) (self st)))
                   (cursor st))).
Proof.
  intros Hdc. split; [|split].
  - intros draws. now rewrite (check_availability_run draws [] st Hdc).
  - intros Hmax draws Hin.
    unfold analyze_tap_options, bind at 1, get_self.
    destruct (range_pos _ Hmax) as [ns ->].
    cbn [tap_loop]. unfold bind at 1.
    now rewrite (tap_lands_WUBRG_empty rand draws Hin [] st Hdc).
  - intros Hmax.
    unfold analyze_tap_options, bind at 1, get_self.
    destruct (range_pos _ Hmax) as [ns ->].
    cbn [tap_loop tap_lands].
    rewrite (bind_step _ _ st [] st) by reflexivity.
    rewrite (bind_step _ _ st [] st (read_deck_colors_Some st [] Hdc)).
    reflexivity.
Qed.

(** With no land other than WUBRG lands, no colour is required. *)
Lemma color_id_loop_only_WUBRG (lb : list (string * Z)) :
  (forall land number, In (land, number) lb -> land <> "WUBRG" -> number = 0) ->
  forall acc, color_id_loop lb acc = acc.
Proof.
  induction lb as [|[land number] lb IH]; intros Hzero acc; [reflexivity|].
  cbn [color_id_loop].
  assert (Hskip : negb (String.eqb land "WUBRG") && negb (number =? 0) = false).
  { destruct (String.eqb land "WUBRG") eqn:Hw; [reflexivity|].
    apply String.eqb_neq in Hw.
    rewrite (Hzero land number (or_introl eq_refl) Hw). reflexivity. }
  rewrite Hskip. apply IH. intros l n Hin. apply Hzero. now right.
Qed.

(** ... and the draw pile holds WUBRG lands only. *)
Lemma pile_of_only_WUBRG (lb : list (string * Z)) (land : string) :
  (forall land number, In (land, number) lb -> land <> "WUBRG" -> number = 0) ->
  In land (pile_of lb) -> land = "WUBRG".
Proof.
  intros Hzero Hin. unfold pile_of in Hin. apply in_flat_map in Hin.
  destruct Hin as [[key value] [Hkv Hrep]]. simpl in Hrep.
  pose proof (repeat_spec _ _ _ Hrep) as ->.
  destruct (string_dec key "WUBRG") as [Heq|Hne]; [assumption|].
  rewrite (Hzero key value Hkv Hne) in Hrep. contradiction.
Qed.

Lemma firstn_incl {A} (k : nat) (l : list A) (x : A) : In x (firstn k l) -> In x l.
Proof.
  intros H. rewrite <- (firstn_skipn k l). apply in_or_app. now left.
Qed.

(** A drawn hand holds lands of the pile, and drawing leaves the object as
    it was. *)
Lemma draw_hand_inv (rand : nat -> nat) (n_of_lands : Z) (st : state)
      (draws : list string) (st' : state) :
  draw_hand rand n_of_lands st = OK (draws, st') ->
  self st' = self st /\
  forall draw, In draw draws -> In draw (draw_pile (self st)).
Proof.
  unfold draw_hand. intros H.
  rewrite (bind_step _ _ _ (self st) st) in H by reflexivity.
  apply bind_OK in H. destruct H as [deck [st1 [Hsh H]]].
  unfold ret in H. injection H as <- <-.
  destruct (shuffle_OK rand (draw_pile (self st)) st) as [y [st2 [Hsh' [_ Hself]]]].
  rewrite Hsh in Hsh'. injection Hsh' as <- <-.
  split; [exact Hself|].
  intros draw Hin.
  apply (Permutation_in draw (shuffle_Permutation rand _ _ _ _ Hsh)).
  unfold slice_to in Hin. destruct (0 <=? n_of_lands); exact (firstn_incl _ _ _ Hin).
Qed.

(** C10: for a land base in which no label other than WUBRG has a nonzero
    count, loaded on a fresh analyzer, the derived colour identity is empty;
    every hand drawn in a trial passes the feasibility check; and, one
    attempt at least being allowed, the tap search raises IndexError (the
    choice from the empty colour identity) if the hand holds a WUBRG land,
    while a hand with no WUBRG land succeeds on attempt 0. *)
Theorem C10_empty_required_set
        (rand : nat -> nat) (o : ManaAnalyzer) (cur : nat) (parts_clean : list Z)
        (n_of_lands : Z) (st0 st st1 : state) (draws : list string) :
  fresh o ->
  (27 <= length parts_clean)%nat ->
  (forall land number,
     In (land, number) (land_base_of parts_clean) -> land <> "WUBRG" -> number = 0) ->
  initialize parts_clean (mkState o cur) = OK (tt, st0) ->
  same_setup (self st0) (self st) ->
  draw_hand rand n_of_lands st = OK (draws, st1) ->
  1 <= max_tap_tries (self st0) ->
  deck_colors (self st0) = Some [] /\
  check_availability draws st1 = OK (true, st1) /\
  (In "WUBRG" draws -> analyze_tap_options rand draws st1 = Raise IndexError) /\
  (~ In "WUBRG" draws ->
   analyze_tap_options rand draws st1 =
   OK (tt, mkState (set_total_tries (total_tries (self st1) + 0)
                      (set_successful (successful (self st1) + 1) (self st1)))
                   (cursor st1))).
Proof.
  intros [Hlt [Hlb Hdp]] Hlen Hzero Hinit Hset Hdraw Hmax.
  rewrite (initialize_fresh o cur parts_clean Hlt Hlb Hlen) in Hinit.
  injection Hinit as <-.
  cbn [self deck_colors max_tap_tries] in *.
  rewrite (color_id_loop_only_WUBRG _ Hzero []).
  destruct Hset as [Hdc [_ [_ [Hpile [_ [Hcap _]]]]]].
  cbn [deck_colors draw_pile max_tap_tries] in Hdc, Hpile, Hcap.
  rewrite (color_id_loop_only_WUBRG _ Hzero []) in Hdc.
  rewrite Hdp in Hpile. cbn [app] in Hpile.
  destruct (draw_hand_inv rand n_of_lands st draws st1 Hdraw) as [Hself Hfrom].
  assert (Hdc1 : deck_colors (self st1) = Some []) by now rewrite Hself.
  assert (Hcap1 : 1 <= max_tap_tries (self st1)) by (rewrite Hself, Hcap; exact Hmax).
  destruct (empty_color_identity_search rand st1 Hdc1) as [Hcheck [Hfault Hempty]].
  split; [reflexivity|]. split; [apply Hcheck|]. split.
  - intros Hin. now apply Hfault.
  - intros Hnone. destruct draws as [|draw draws]; [now apply Hempty|].
    exfalso. apply Hnone. left.
    apply (pile_of_only_WUBRG (land_base_of parts_clean)); [assumption|].
    rewrite <- Hpile. apply Hfrom. now left.
Qed.

Lemma C10_empty_required_set_witness :
  deck_colors
    (self (state_after (initialize (deck_file [("WUBRG", 2)]) (mkState (analyzer 1 5) 0))))
  = Some [] /\
  check_availability ["WUBRG"]
    (state_after
       (draw_hand (oracle_of []) 1
          (state_after (initialize (deck_file [("WUBRG", 2)]) (mkState (analyzer 1 5) 0)))))
  = OK (true,
        state_after
          (draw_hand (oracle_of []) 1
             (state_after (initialize (deck_file [("WUBRG", 2)]) (mkState (analyzer 1 5) 0))))) /\
  analyze_tap_options (oracle_of []) ["WUBRG"]
    (state_after
       (draw_hand (oracle_of []) 1
          (state_after (initialize (deck_file [("WUBRG", 2)]) (mkState (analyzer 1 5) 0)))))
  = Raise IndexError.
Proof.
  destruct (C10_empty_required_set (oracle_of []) (analyzer 1 5) 0
              (deck_file [("WUBRG", 2)]) 1
              (state_after (initialize (deck_file [("WUBRG", 2)]) (mkState (analyzer 1 5) 0)))
              (state_after (initialize (deck_file [("WUBRG", 2)]) (mkState (analyzer 1 5) 0)))
              (state_after
                 (draw_hand (oracle_of []) 1
                    (state_after (initialize (deck_file [("WUBRG", 2)])
                                             (mkState (analyzer 1 5) 0)))))
              ["WUBRG"])
    as [Hdc [Hcheck [Hfault _]]].
  - repeat split.
  - vm_compute. lia.
  - intros land number Hin Hne. vm_compute in Hin.
    repeat (destruct Hin as [Hin|Hin];
            [injection Hin as <- <-; first [reflexivity | now elim Hne] |]).
    destruct Hin.
  - vm_compute. reflexivity.
  - apply same_setup_refl.
  - vm_compute. reflexivity.
  - vm_compute. discriminate.
  - split; [exact Hdc|]. split; [exact Hcheck|]. apply Hfault. simpl. tauto.
Defined.

(** * Further properties of the code *)

(** ** Drawing the hand ([run_simulation], the first lines of the loop) *)

Lemma count_occ_firstn_le (k : nat) (l : list string) (x : string) :
  (count_occ string_dec (firstn k l) x <= count_occ string_dec l x)%nat.
Proof.
  revert k. induction l as [|y l IH]; intros [|k]; simpl; try lia.
  specialize (IH k). destruct (string_dec y x); lia.
Qed.

Lemma trial_draw_hand (rand : nat -> nat) (n_of_lands : Z) (st : state) :
  trial rand n_of_lands st =
  bind (draw_hand rand n_of_lands)
       (fun draws =>
          bind (check_availability draws)
               (fun ok =>
                  bind (if ok then analyze_tap_options rand draws else ret tt)
                       (fun _ => ret ok))) st.
Proof.
  unfold trial, draw_hand, bind, get_self, ret.
  destruct (shuffle rand (draw_pile (self st)) st) as [[deck st1]|e]; reflexivity.
Qed.

(** X1: the hand of a trial is drawn without replacement and leaves the
    analyzer as it was.  Drawing never fails; for [n_of_lands >= 0] the hand
    has [min n_of_lands (len pile)] lands, for a negative [n_of_lands] it has
    all lands but the last [- n_of_lands] of the shuffled pile; no label
    occurs in the hand more often than in the pile; and the trial goes on
    with exactly this hand. *)
Theorem X1_hand_drawn_without_replacement
        (rand : nat -> nat) (n_of_lands : Z) (st : state) :
  exists draws st',
    draw_hand rand n_of_lands st = OK (draws, st') /\
    self st' = self st /\
    length draws =
      (if (0 <=? n_of_lands)%Z
       then Nat.min (Z.to_nat n_of_lands) (length (draw_pile (self st)))
       else length (draw_pile (self st)) - Z.to_nat (- n_of_lands)%Z)%nat /\
    (forall land,
       (count_occ string_dec draws land
        <= count_occ string_dec (draw_pile (self st)) land)%nat) /\
    trial rand n_of_lands st =
      bind (check_availability draws)
           (fun ok =>
              bind (if ok then analyze_tap_options rand draws else ret tt)
                   (fun _ => ret ok)) st'.
Proof.
  destruct (shuffle_OK rand (draw_pile (self st)) st) as [deck [st1 [Hsh [Hlen Hself]]]].
  assert (Hdraw : draw_hand rand n_of_lands st = OK (slice_to n_of_lands deck, st1)).
  { unfold draw_hand. rewrite (bind_step _ _ _ (self st) st) by reflexivity.
    now rewrite (bind_step _ _ _ _ _ Hsh). }
  exists (slice_to n_of_lands deck), st1.
  split; [exact Hdraw|]. split; [exact Hself|]. split; [|split].
  - unfold slice_to. destruct (0 <=? n_of_lands); rewrite length_firstn, Hlen.
    + reflexivity.
    + lia.
  - intros land.
    rewrite <- (proj1 (Permutation_count_occ string_dec deck (draw_pile (self st)))
                  (shuffle_Permutation rand _ _ _ _ Hsh) land).
    unfold slice_to. destruct (0 <=? n_of_lands); apply count_occ_firstn_le.
  - rewrite trial_draw_hand. now rewrite (bind_step _ _ _ _ _ Hdraw).
Qed.

(** ** Loading the deck ([load_deck], [initialize]) *)

Lemma reset_run (st : state) :
  reset st =
  OK (tt, mkState (set_total_tries 0 (set_impossible 0 (set_successful 0
                     (set_deck_colors None (self st))))) (cursor st)).
Proof. reflexivity. Qed.

Lemma pile_of_length_clipped (lb : list (string * Z)) :
  Z.of_nat (length (pile_of lb)) = lands_in_pile lb.
Proof.
  induction lb as [|[key value] lb IH]; simpl; [reflexivity|].
  rewrite length_app, repeat_length, Nat2Z.inj_add, IH. lia.
Qed.

Lemma pile_of_In (lb : list (string * Z)) (land : string) :
  In land (pile_of lb) <-> exists number, In (land, number) lb /\ 0 < number.
Proof.
  unfold pile_of. rewrite in_flat_map. split.
  - intros [[key value] [Hin Hrep]]. simpl in Hrep.
    pose proof (repeat_spec _ _ _ Hrep) as ->.
    exists value. split; [assumption|].
    destruct (Z.to_nat value) eqn:Hv; [contradiction | lia].
  - intros [number [Hin Hpos]]. exists (land, number). split; [assumption|].
    simpl. destruct (Z.to_nat number) eqn:Hv; [lia | now left].
Qed.

(** X2: the first load on a fresh analyzer.  With at least 27 numbers in the
    deck file, [initialize] succeeds; the land base pairs the 27 land types,
    in their order, with the first 27 numbers; every label occurs in the draw
    pile exactly its count many times, none for a negative count; the pile
    holds land types only; and its length is the sum of the counts, negative
    ones taken as zero. *)
Theorem X2_first_load_builds_pile (o : ManaAnalyzer) (cur : nat) (parts_clean : list Z) :
  fresh o ->
  (27 <= length parts_clean)%nat ->
  exists st0,
    initialize parts_clean (mkState o cur) = OK (tt, st0) /\
    land_base (self st0) = land_base_of parts_clean /\
    (forall land number, In (land, number) (land_base (self st0)) ->
       count_occ string_dec (draw_pile (self st0)) land = Z.to_nat number) /\
    (forall land, In land (draw_pile (self st0)) -> In land LAND_TYPES) /\
    Z.of_nat (length (draw_pile (self st0))) = lands_in_pile (land_base (self st0)).
Proof.
  intros [Hlt [Hlb Hdp]] Hlen.
  eexists. split; [apply initialize_fresh; assumption|].
  cbn [self land_base draw_pile]. rewrite Hdp. cbn [app].
  split; [reflexivity|]. split; [|split].
  - intros land number Hin. apply pile_of_count; [|assumption].
    apply NoDup_keys_combine, NoDup_LAND_TYPES.
  - intros land Hin. apply pile_of_In in Hin. destruct Hin as [number [Hin _]].
    exact (in_combine_l _ _ _ _ Hin).
  - apply pile_of_length_clipped.
Qed.

Lemma X2_first_load_builds_pile_witness :
  exists st0,
    initialize (deck_file [("W", 8); ("R", 9); ("G", 3); ("WU", -2)]) (mkState init 0)
      = OK (tt, st0) /\
    land_base (self st0) = land_base_of (deck_file [("W", 8); ("R", 9); ("G", 3); ("WU", -2)]) /\
    (forall land number, In (land, number) (land_base (self st0)) ->
       count_occ string_dec (draw_pile (self st0)) land = Z.to_nat number) /\
    (forall land, In land (draw_pile (self st0)) -> In land LAND_TYPES) /\
    Z.of_nat (length (draw_pile (self st0))) = lands_in_pile (land_base (self st0)).
Proof.
  apply (X2_first_load_builds_pile init 0
           (deck_file [("W", 8); ("R", 9); ("G", 3); ("WU", -2)])).
  - repeat split.
  - vm_compute. lia.
Defined.

Lemma load_counts_short (parts_clean : list Z) (lts : list string) :
  forall index st,
  (index <= length parts_clean)%nat ->
  (length parts_clean < index + length lts)%nat ->
  load_counts index lts parts_clean st = Raise IndexError.
Proof.
  induction lts as [|land_type lts IH]; intros index st Hidx Hlen; simpl in Hlen.
  - lia.
  - cbn [load_counts].
    destruct (nth_error parts_clean index) as [v|] eqn:Hnth; [|reflexivity].
    assert (Hlt : (index < length parts_clean)%nat).
    { apply nth_error_Some. congruence. }
    unfold bind, modify_self. apply IH; lia.
Qed.

Lemma load_counts_app (parts_clean more : list Z) (lts : list string) :
  forall index st,
  (index + length lts <= length parts_clean)%nat ->
  load_counts index lts (parts_clean ++ more) st = load_counts index lts parts_clean st.
Proof.
  induction lts as [|land_type lts IH]; intros index st Hlen; simpl in Hlen;
    [reflexivity|].
  cbn [load_counts]. rewrite nth_error_app1 by lia.
  destruct (nth_error parts_clean index) as [v|]; [|reflexivity].
  unfold bind, modify_self. apply IH. lia.
Qed.

(** On numbers: with fewer of them than there are land types, the loop over
    the land types runs off the list. *)
Lemma load_deck_short (parts_clean : list Z) (st : state) :
  (length parts_clean < length (land_types (self st)))%nat ->
  load_deck parts_clean st = Raise IndexError.
Proof.
  intros Hlen. unfold load_deck.
  rewrite (bind_step _ _ _ (self st) st) by reflexivity.
  apply bind_raise. apply load_counts_short; lia.
Qed.

Lemma load_counts_text_numbers (int_of : string -> option Z)
      (parts_clean : list string) (nums : list Z) (lts : list string) :
  map int_of parts_clean = map Some nums ->
  forall index st,
  load_counts_text int_of index lts parts_clean st =
  of_result (load_counts index lts nums st).
Proof.
  intros Hconv. induction lts as [|land_type lts IH]; intros index st; [reflexivity|].
  cbn [load_counts_text load_counts].
  assert (Hnth : option_map int_of (nth_error parts_clean index) =
                 option_map Some (nth_error nums index)).
  { rewrite <- !nth_error_map. now rewrite Hconv. }
  destruct (nth_error parts_clean index) as [part|];
    destruct (nth_error nums index) as [v|]; simpl in Hnth; try discriminate.
  - injection Hnth as ->. unfold bind, modify_self. apply IH.
  - reflexivity.
Qed.

Lemma load_counts_text_not_a_number (int_of : string -> option Z)
      (parts_clean : list string) (lts : list string) :
  forall index st i part,
  (index <= i < index + length lts)%nat ->
  nth_error parts_clean i = Some part -> int_of part = None ->
  load_counts_text int_of index lts parts_clean st = LoadValueError.
Proof.
  induction lts as [|land_type lts IH]; intros index st i part Hi Hnth Hnone;
    simpl in Hi; [lia|].
  cbn [load_counts_text].
  assert (Hlen : (i < length parts_clean)%nat) by (apply nth_error_Some; congruence).
  destruct (nth_error parts_clean index) as [p|] eqn:Hidx.
  - destruct (int_of p) as [v|] eqn:Hp; [|reflexivity].
    assert (Hne : i <> index) by (intros ->; congruence).
    apply (IH (S index) _ i part); [lia | assumption..].
  - apply nth_error_None in Hidx. lia.
Qed.

Lemma all_numbers_convert (int_of : string -> option Z) (parts_clean : list string) :
  (forall part, In part parts_clean -> int_of part <> None) ->
  exists nums, map int_of parts_clean = map Some nums.
Proof.
  induction parts_clean as [|part parts_clean IH]; intros Hall.
  - now exists [].
  - destruct IH as [nums Hnums]; [intros p Hp; apply Hall; now right|].
    destruct (int_of part) as [v|] eqn:Hv.
    + exists (v :: nums). simpl. now rewrite Hv, Hnums.
    + exfalso. now apply (Hall part (or_introl eq_refl)).
Qed.

(** X3: the errors of [load_deck] on the text of the deck line, [int] being
    any conversion.  The empty parts are dropped.  If every part left is a
    number, the load is the load of the converted numbers, and it raises
    IndexError when there are fewer of them than land types.  If a part that
    is read for a land type is not a number, such as the newline left behind
    a trailing delimiter, the load raises ValueError. *)
Theorem X3_deck_line_errors (int_of : string -> option Z) (parts : list string) (st : state) :
  (forall nums,
     map int_of (clean_parts parts) = map Some nums ->
     load_deck_text int_of parts st = of_result (load_deck nums st)) /\
  ((forall part, In part (clean_parts parts) -> int_of part <> None) ->
   (length (clean_parts parts) < length (land_types (self st)))%nat ->
   load_deck_text int_of parts st = LoadRaises IndexError) /\
  (forall i part,
     (i < length (land_types (self st)))%nat ->
     nth_error (clean_parts parts) i = Some part ->
     int_of part = None ->
     load_deck_text int_of parts st = LoadValueError).
Proof.
  assert (Hnum : forall nums,
             map int_of (clean_parts parts) = map Some nums ->
             load_deck_text int_of parts st = of_result (load_deck nums st)).
  { intros nums Hconv. unfold load_deck_text, load_deck.
    rewrite (load_counts_text_numbers int_of _ nums _ Hconv).
    rewrite (bind_step _ _ _ (self st) st) by reflexivity.
    unfold bind.
    destruct (load_counts 0 (land_types (self st)) nums st) as [[[] st1]|e]; reflexivity. }
  split; [exact Hnum|]. split.
  - intros Hall Hlen.
    destruct (all_numbers_convert int_of _ Hall) as [nums Hconv].
    rewrite (Hnum nums Hconv), load_deck_short; [reflexivity|].
    apply (f_equal (@length (option Z))) in Hconv. rewrite !length_map in Hconv. lia.
  - intros i part Hi Hnth Hnone. unfold load_deck_text.
    rewrite (load_counts_text_not_a_number int_of _ _ 0%nat st i part);
      [reflexivity | lia | assumption..].
Qed.

Lemma X3_deck_line_errors_witness :
  load_deck_text int_of_decimal ["4"; ""; "4"; ""] (start init) = LoadRaises IndexError /\
  load_deck_text int_of_decimal (repeat "1" 26 ++ [String (ascii_of_nat 10) ""]) (start init)
  = LoadValueError.
Proof.
  split.
  - apply (proj1 (proj2 (X3_deck_line_errors int_of_decimal ["4"; ""; "4"; ""] (start init)))).
    + intros part Hin. vm_compute in Hin.
      destruct Hin as [<-|[<-|[]]]; vm_compute; discriminate.
    + vm_compute. lia.
  - apply (proj2 (proj2 (X3_deck_line_errors int_of_decimal
                           (repeat "1" 26 ++ [String (ascii_of_nat 10) ""]) (start init)))
             26%nat (String (ascii_of_nat 10) "")).
    + vm_compute. lia.
    + vm_compute. reflexivity.
    + vm_compute. reflexivity.
Defined.

(** X4: numbers of the deck file beyond the land types are never read: a
    file with more numbers loads, and runs, exactly as its prefix. *)
Theorem X4_surplus_numbers_ignored (parts_clean more : list Z) (st : state) :
  (length (land_types (self st)) <= length parts_clean)%nat ->
  load_deck (parts_clean ++ more) st = load_deck parts_clean st /\
  forall rand round2 n_of_lands,
    run_simulation rand round2 (parts_clean ++ more) n_of_lands st =
    run_simulation rand round2 parts_clean n_of_lands st.
Proof.
  intros Hlen.
  assert (Hload : forall st1, land_types (self st1) = land_types (self st) ->
                              load_deck (parts_clean ++ more) st1 = load_deck parts_clean st1).
  { intros st1 Hlt. unfold load_deck.
    rewrite !(bind_step _ _ _ (self st1) st1) by reflexivity.
    unfold bind. rewrite load_counts_app by (rewrite Hlt; lia). reflexivity. }
  split; [now apply Hload|].
  intros rand round2 n_of_lands. rewrite !run_simulation_unfold.
  assert (Hinit : initialize (parts_clean ++ more) st = initialize parts_clean st).
  { unfold initialize. rewrite !(bind_step _ _ _ _ _ (reset_run st)).
    unfold bind. now rewrite Hload. }
  now rewrite Hinit.
Qed.

Lemma X4_surplus_numbers_ignored_witness :
  load_deck (deck_file [("W", 2)] ++ [7; 7]) (start init)
    = load_deck (deck_file [("W", 2)]) (start init) /\
  forall rand round2 n_of_lands,
    run_simulation rand round2 (deck_file [("W", 2)] ++ [7; 7]) n_of_lands (start init) =
    run_simulation rand round2 (deck_file [("W", 2)]) n_of_lands (start init).
Proof.
  apply (X4_surplus_numbers_ignored (deck_file [("W", 2)]) [7; 7] (start init)).
  vm_compute. lia.
Defined.

(** X5: [load_deck] never takes a land out of the draw pile.  After every
    successful load, on any analyzer, the pile is the pile of before followed
    by one entry per land of the land base just stored; the counters, the
    colour identity, the settings and the random stream are left alone. *)
Theorem X5_load_deck_appends (parts_clean : list Z) (st st' : state) :
  load_deck parts_clean st = OK (tt, st') ->
  draw_pile (self st') = (draw_pile (self st) ++ pile_of (land_base (self st')))%list /\
  deck_colors (self st') = deck_colors (self st) /\
  successful (self st') = successful (self st) /\
  impossible (self st') = impossible (self st) /\
  total_tries (self st') = total_tries (self st) /\
  n_of_simulations (self st') = n_of_simulations (self st) /\
  max_tap_tries (self st') = max_tap_tries (self st) /\
  cursor st' = cursor st.
Proof.
  unfold load_deck. intros H.
  apply bind_OK in H. destruct H as [o [st1 [Hget H]]].
  unfold get_self in Hget. injection Hget as <- <-.
  apply bind_OK in H. destruct H as [[] [st2 [Hcnt Hpile]]].
  apply load_counts_inv in Hcnt.
  unfold modify_self in Hpile. injection Hpile as <-.
  cbn [self cursor set_draw_pile draw_pile land_base deck_colors successful impossible
       total_tries n_of_simulations max_tap_tries].
  rewrite fill_pile_app.
  destruct Hcnt as [Hc [Hd [Hs [Hi [Ht [Hp [Hn Hm]]]]]]].
  rewrite Hp. tauto.
Qed.

Lemma X5_load_deck_appends_witness :
  draw_pile (self (state_after (load_deck (deck_file [("U", 2)])
                                          (mkState (set_draw_pile ["W"] init) 0))))
  = (draw_pile (self (mkState (set_draw_pile ["W"] init) 0)) ++
     pile_of (land_base (self (state_after (load_deck (deck_file [("U", 2)])
                                              (mkState (set_draw_pile ["W"] init) 0))))))%list.
Proof.
  apply (X5_load_deck_appends (deck_file [("U", 2)])
           (mkState (set_draw_pile ["W"] init) 0)
           (state_after (load_deck (deck_file [("U", 2)])
                                   (mkState (set_draw_pile ["W"] init) 0)))).
  vm_compute. reflexivity.
Defined.

Lemma load_counts_reload (o : ManaAnalyzer) (cur : nat) (old_parts parts_clean : list Z) :
  land_base o = land_base_of old_parts ->
  (27 <= length old_parts)%nat ->
  (27 <= length parts_clean)%nat ->
  load_counts 0 LAND_TYPES parts_clean (mkState o cur) =
  OK (tt, mkState (set_land_base (land_base_of parts_clean) o) cur).
Proof.
  destruct o as [dc su im tt0 lt lb dp ns mt dn]. simpl. intros -> Hold Hlen.
  do 27 (destruct old_parts as [|? old_parts]; [simpl in Hold; lia|]).
  do 27 (destruct parts_clean as [|? parts_clean]; [simpl in Hlen; lia|]).
  vm_compute. reflexivity.
Qed.

(** X6: two initializations in a row on one analyzer.  The second one
    replaces every count of the land base, in place, by the counts of the
    second file and derives the colour identity from them, and zeroes the
    counters; the draw pile then holds the lands of the first file followed
    by the lands of the second. *)
Theorem X6_second_initialize (o : ManaAnalyzer) (cur : nat) (parts1 parts2 : list Z) :
  fresh o ->
  (27 <= length parts1)%nat ->
  (27 <= length parts2)%nat ->
  exists st1 st2,
    initialize parts1 (mkState o cur) = OK (tt, st1) /\
    initialize parts2 st1 = OK (tt, st2) /\
    land_base (self st2) = land_base_of parts2 /\
    deck_colors (self st2) = Some (color_id_loop (land_base_of parts2) []) /\
    draw_pile (self st2) =
      (pile_of (land_base_of parts1) ++ pile_of (land_base_of parts2))%list /\
    successful (self st2) = 0 /\ impossible (self st2) = 0 /\ total_tries (self st2) = 0.
Proof.
  intros [Hlt [Hlb Hdp]] Hlen1 Hlen2.
  eexists. eexists. split; [apply initialize_fresh; assumption|].
  rewrite Hdp. cbn [app].
  match goal with |- initialize parts2 ?s = _ /\ _ => set (st1 := s) end.
  assert (Hinit : initialize parts2 st1 =
            OK (tt, mkState
                      (mkManaAnalyzer (Some (color_id_loop (land_base_of parts2) []))
                         0 0 0 LAND_TYPES (land_base_of parts2)
                         (pile_of (land_base_of parts1) ++ pile_of (land_base_of parts2))
                         (n_of_simulations o) (max_tap_tries o) (deck_name o))
                      cur)).
  { unfold initialize. rewrite (bind_step _ _ _ _ _ (reset_run st1)).
    unfold load_deck.
    match goal with |- bind (bind get_self _) _ ?s = _ => set (st2 := s) end.
    unfold bind at 1.
    rewrite (bind_step _ _ _ (self st2) st2) by reflexivity.
    assert (Hcnt : load_counts 0 (land_types (self st2)) parts2 st2 =
                   OK (tt, mkState (set_land_base (land_base_of parts2) (self st2)) cur)).
    { apply (load_counts_reload (self st2) cur parts1 parts2); [reflexivity | assumption..]. }
    rewrite (bind_step _ _ _ _ _ Hcnt).
    unfold modify_self. cbn [self cursor]. rewrite get_color_id_run.
    cbn [self cursor set_draw_pile set_land_base land_base draw_pile].
    rewrite fill_pile_app. reflexivity. }
  split; [exact Hinit|]. cbn [self land_base deck_colors draw_pile successful impossible
                              total_tries]. tauto.
Qed.

Lemma X6_second_initialize_witness :
  exists st1 st2,
    initialize (deck_file [("W", 1)]) (mkState init 0) = OK (tt, st1) /\
    initialize (deck_file [("UB", 2)]) st1 = OK (tt, st2) /\
    land_base (self st2) = land_base_of (deck_file [("UB", 2)]) /\
    deck_colors (self st2) = Some (color_id_loop (land_base_of (deck_file [("UB", 2)])) []) /\
    draw_pile (self st2) =
      (pile_of (land_base_of (deck_file [("W", 1)])) ++
       pile_of (land_base_of (deck_file [("UB", 2)])))%list /\
    successful (self st2) = 0 /\ impossible (self st2) = 0 /\ total_tries (self st2) = 0.
Proof.
  apply (X6_second_initialize init 0 (deck_file [("W", 1)]) (deck_file [("UB", 2)])).
  - repeat split.
  - vm_compute. lia.
  - vm_compute. lia.
Defined.

(** ** A run starts from zero ([reset], [initialize], [run_simulation]) *)

(** X7: whatever the three counters and the colour identity of the analyzer
    are when [run_simulation] is called, for instance those left by an
    earlier run, the run and its result are the same: nothing of them is
    carried over. *)
Theorem X7_run_ignores_earlier_counters
        (rand : nat -> nat) (round2 : Q -> Q) (parts_clean : list Z) (n_of_lands : Z)
        (o : ManaAnalyzer) (cur : nat)
        (dc : option (list ascii)) (su im tt0 : Z) :
  run_simulation rand round2 parts_clean n_of_lands
    (mkState (set_deck_colors dc (set_successful su (set_impossible im
                (set_total_tries tt0 o)))) cur)
  = run_simulation rand round2 parts_clean n_of_lands (mkState o cur).
Proof.
  rewrite !run_simulation_unfold.
  assert (Hinit :
    initialize parts_clean
      (mkState (set_deck_colors dc (set_successful su (set_impossible im
                  (set_total_tries tt0 o)))) cur)
    = initialize parts_clean (mkState o cur)).
  { unfold initialize. rewrite !(bind_step _ _ _ _ _ (reset_run _)). reflexivity. }
  now rewrite Hinit.
Qed.

(** ** The colour identity ([get_color_id]) *)

Lemma presence_nonzero (number : Z) :
  ((if number =? 0 then 0 else 1) =? 0) = (number =? 0).
Proof. now destruct (number =? 0). Qed.

Lemma color_id_loop_presence (lb : list (string * Z)) :
  forall acc, color_id_loop (presence lb) acc = color_id_loop lb acc.
Proof.
  induction lb as [|[land number] lb IH]; intros acc; [reflexivity|].
  cbn [presence map color_id_loop fst snd]. fold (presence lb).
  rewrite presence_nonzero.
  destruct (negb (String.eqb land "WUBRG") && negb (number =? 0)); [|apply IH].
  destruct (Nat.eqb _ 5); [reflexivity | apply IH].
Qed.

(** X8: the colour identity depends on which labels are present, not on how
    many lands they have: [get_color_id] stores the same colours, in the same
    order, when every nonzero count, negative ones too, is replaced by 1. *)
Theorem X8_color_identity_ignores_multiplicity (o : ManaAnalyzer) (cur : nat) :
  get_color_id (mkState (set_land_base (presence (land_base o)) o) cur) =
  OK (tt, mkState (set_deck_colors (Some (color_id_loop (land_base o) []))
                     (set_land_base (presence (land_base o)) o)) cur) /\
  get_color_id (mkState o cur) =
  OK (tt, mkState (set_deck_colors (Some (color_id_loop (land_base o) [])) o) cur).
Proof.
  split; [|apply get_color_id_run].
  rewrite get_color_id_run. cbn [self cursor set_land_base land_base].
  now rewrite color_id_loop_presence.
Qed.

(** ** The feasibility check ([check_availability]) *)

Lemma forallb_mem_incl (dc symbols : list ascii) :
  forallb (fun c => mem c symbols) dc = true <-> incl dc symbols.
Proof.
  rewrite forallb_forall. unfold incl. split; intros H c Hc.
  - apply mem_In. now apply H.
  - apply mem_In. now apply H.
Qed.

(** X9: what the feasibility check answers and what it changes.  Once the
    colour identity is set the check never fails; it answers True exactly
    when the hand has at least as many lands as there are required colours
    and every required colour is a symbol of some drawn label; a True answer
    and a too short hand leave the analyzer untouched; otherwise [impossible]
    grows by exactly one, however many colours are missing. *)
Theorem X9_check_availability_answer (draws : list string) (dc : list ascii) (st : state) :
  deck_colors (self st) = Some dc ->
  exists ok st',
    check_availability draws st = OK (ok, st') /\
    (ok = true <->
     (length dc <= length draws)%nat /\ incl dc (hand_symbols draws)) /\
    (ok = true -> st' = st) /\
    ((length draws < length dc)%nat -> st' = st) /\
    ((length dc <= length draws)%nat -> ok = false ->
     st' = mkState (set_impossible (impossible (self st) + 1) (self st)) (cursor st)).
Proof.
  intros Hdc. rewrite (check_availability_run draws dc st Hdc).
  destruct (Nat.ltb (length draws) (length dc)) eqn:Hlen.
  - apply Nat.ltb_lt in Hlen. exists false, st. split; [reflexivity|].
    split; [split; [discriminate | lia]|].
    split; [reflexivity|]. split; [reflexivity | lia].
  - apply Nat.ltb_ge in Hlen.
    destruct (forallb (fun c => mem c (hand_symbols draws)) dc) eqn:Hall.
    + exists true, st. split; [reflexivity|].
      apply forallb_mem_incl in Hall.
      split; [tauto|]. split; [reflexivity|]. split; [reflexivity | discriminate].
    + eexists false, _. split; [reflexivity|].
      split.
      * split; [discriminate|]. intros [_ Hincl].
        apply forallb_mem_incl in Hincl. congruence.
      * split; [discriminate|]. split; [lia | reflexivity].
Qed.

Lemma X9_check_availability_answer_witness :
  exists ok st',
    check_availability ["W"; "W"; "UB"]
      (mkState (set_deck_colors (Some ["W"; "U"; "R"]%char) init) 0) = OK (ok, st') /\
    (ok = true <->
     (length ["W"; "U"; "R"]%char <= length ["W"; "W"; "UB"])%nat /\
     incl ["W"; "U"; "R"]%char (hand_symbols ["W"; "W"; "UB"])) /\
    (ok = true -> st' = mkState (set_deck_colors (Some ["W"; "U"; "R"]%char) init) 0) /\
    ((length ["W"; "W"; "UB"] < length ["W"; "U"; "R"]%char)%nat ->
     st' = mkState (set_deck_colors (Some ["W"; "U"; "R"]%char) init) 0) /\
    ((length ["W"; "U"; "R"]%char <= length ["W"; "W"; "UB"])%nat -> ok = false ->
     st' = mkState (set_impossible
                      (impossible (set_deck_colors (Some ["W"; "U"; "R"]%char) init) + 1)
                      (set_deck_colors (Some ["W"; "U"; "R"]%char) init)) 0).
Proof.
  apply (X9_check_availability_answer ["W"; "W"; "UB"] ["W"; "U"; "R"]%char
           (mkState (set_deck_colors (Some ["W"; "U"; "R"]%char) init) 0)).
  reflexivity.
Defined.

Lemma hand_symbols_app (draws more : list string) :
  hand_symbols (draws ++ more) = (hand_symbols draws ++ hand_symbols more)%list.
Proof. unfold hand_symbols. apply flat_map_app. Qed.

(** X10: more lands never make a hand infeasible.  If a hand passes the
    feasibility check, so does every hand that holds it, lands added in
    front or behind, and the analyzer is untouched. *)
Theorem X10_check_availability_monotone (draws more : list string) (st st' : state) :
  check_availability draws st = OK (true, st') ->
  check_availability (more ++ draws) st = OK (true, st) /\
  check_availability (draws ++ more) st = OK (true, st).
Proof.
  intros H.
  destruct (deck_colors (self st)) as [dc|] eqn:Hdc.
  - rewrite (check_availability_run draws dc st Hdc) in H.
    destruct (Nat.ltb (length draws) (length dc)) eqn:Hlen; [discriminate|].
    apply Nat.ltb_ge in Hlen.
    destruct (forallb (fun c => mem c (hand_symbols draws)) dc) eqn:Hall; [|discriminate].
    apply forallb_mem_incl in Hall.
    rewrite !(check_availability_run _ dc st Hdc), !length_app.
    assert (H1 : Nat.ltb (length more + length draws) (length dc) = false)
      by (apply Nat.ltb_ge; lia).
    assert (H2 : Nat.ltb (length draws + length more) (length dc) = false)
      by (apply Nat.ltb_ge; lia).
    rewrite H1, H2, !hand_symbols_app.
    assert (Hl : forallb (fun c => mem c (hand_symbols more ++ hand_symbols draws)) dc = true).
    { apply forallb_mem_incl. intros c Hc. apply in_or_app. right. now apply Hall. }
    assert (Hr : forallb (fun c => mem c (hand_symbols draws ++ hand_symbols more)) dc = true).
    { apply forallb_mem_incl. intros c Hc. apply in_or_app. left. now apply Hall. }
    now rewrite Hl, Hr.
  - unfold check_availability, read_deck_colors, bind, get_self in H.
    rewrite Hdc in H. discriminate.
Qed.

Lemma X10_check_availability_monotone_witness :
  check_availability (["C"] ++ ["W"; "UB"])
    (mkState (set_deck_colors (Some ["W"; "U"]%char) init) 0)
  = OK (true, mkState (set_deck_colors (Some ["W"; "U"]%char) init) 0) /\
  check_availability (["W"; "UB"] ++ ["C"])
    (mkState (set_deck_colors (Some ["W"; "U"]%char) init) 0)
  = OK (true, mkState (set_deck_colors (Some ["W"; "U"]%char) init) 0).
Proof.
  apply (X10_check_availability_monotone ["W"; "UB"] ["C"]
           (mkState (set_deck_colors (Some ["W"; "U"]%char) init) 0)
           (mkState (set_deck_colors (Some ["W"; "U"]%char) init) 0)).
  vm_compute. reflexivity.
Defined.

(** X11: a WUBRG land shows all five colours to the feasibility check.  For
    a colour identity within the five colours, a hand that holds a WUBRG land
    passes the check exactly when it has at least as many lands as there are
    required colours, and such a hand is never counted impossible. *)
Theorem X11_WUBRG_land_covers_every_color
        (draws : list string) (dc : list ascii) (st : state) :
  deck_colors (self st) = Some dc ->
  incl dc colors5 ->
  In "WUBRG" draws ->
  check_availability draws st = OK (Nat.leb (length dc) (length draws), st).
Proof.
  intros Hdc Hincl Hin. rewrite (check_availability_run draws dc st Hdc).
  destruct (Nat.ltb (length draws) (length dc)) eqn:Hlen.
  - apply Nat.ltb_lt in Hlen.
    assert (Hleb : Nat.leb (length dc) (length draws) = false) by (apply Nat.leb_gt; lia).
    now rewrite Hleb.
  - apply Nat.ltb_ge in Hlen.
    assert (Hleb : Nat.leb (length dc) (length draws) = true) by (apply Nat.leb_le; lia).
    rewrite Hleb.
    assert (Hall : forallb (fun c => mem c (hand_symbols draws)) dc = true).
    { apply forallb_mem_incl. intros c Hc. unfold hand_symbols.
      apply in_flat_map. exists "WUBRG". split; [assumption|]. now apply Hincl. }
    now rewrite Hall.
Qed.

Lemma X11_WUBRG_land_covers_every_color_witness :
  check_availability ["C"; "WUBRG"; "C"]
    (mkState (set_deck_colors (Some ["B"; "R"; "G"]%char) init) 0)
  = OK (Nat.leb (length ["B"; "R"; "G"]%char) (length ["C"; "WUBRG"; "C"]),
        mkState (set_deck_colors (Some ["B"; "R"; "G"]%char) init) 0).
Proof.
  apply (X11_WUBRG_land_covers_every_color ["C"; "WUBRG"; "C"] ["B"; "R"; "G"]%char
           (mkState (set_deck_colors (Some ["B"; "R"; "G"]%char) init) 0)).
  - reflexivity.
  - unfold colors5. intros c Hc. simpl in *. tauto.
  - simpl. tauto.
Defined.

(** ** The tap search ([analyze_tap_options]) *)

Lemma state_eta (st : state) : st = mkState (self st) (cursor st).
Proof. now destruct st. Qed.

Lemma tap_lands_state (rand : nat -> nat) (draws : list string) :
  forall available st a st',
  tap_lands rand draws available st = OK (a, st') ->
  st' = mkState (self st) (cursor st + length draws).
Proof.
  induction draws as [|draw draws IH]; intros available st a st' H.
  - injection H as _ <-. simpl. rewrite Nat.add_0_r. apply state_eta.
  - cbn [tap_lands] in H. apply bind_OK in H. destruct H as [tapped [st1 [Htap H]]].
    apply tap_land_inv in Htap. destruct Htap as [-> _].
    destruct (negb (mem tapped available)); apply IH in H; rewrite H; simpl;
      f_equal; lia.
Qed.

Lemma tap_loop_trace (rand : nat -> nat) (draws : list string) (ns : list Z) :
  forall st st',
  tap_loop rand ns draws st = OK (tt, st') ->
  (exists pre n post,
     ns = (pre ++ n :: post)%list /\
     st' = mkState (set_total_tries (total_tries (self st) + n)
                      (set_successful (successful (self st) + 1) (self st)))
                   (cursor st + (length pre + 1) * length draws)) \/
  st' = mkState (set_total_tries (total_tries (self st) + max_tap_tries (self st)) (self st))
                (cursor st + length ns * length draws).
Proof.
  induction ns as [|n ns IH]; intros st st' H.
  - injection H as <-. right. simpl. now rewrite Nat.add_0_r.
  - cbn [tap_loop] in H. apply bind_OK in H. destruct H as [available [st1 [Hav H]]].
    apply tap_lands_state in Hav. subst st1.
    unfold read_deck_colors in H. unfold bind at 1 2 in H. unfold get_self in H.
    cbn [self] in H.
    destruct (deck_colors (self st)) as [dc|]; [|discriminate].
    unfold ret in H.
    destruct (Nat.eqb (length available) (length dc)).
    + injection H as <-. left. exists [], n, ns. split; [reflexivity|].
      simpl. f_equal. lia.
    + apply IH in H. cbn [self cursor] in H. destruct H as [[pre [m [post [-> H]]]]|H].
      * left. exists (n :: pre), m, post. split; [reflexivity|].
        rewrite H. f_equal. simpl. lia.
      * right. rewrite H. f_equal. simpl. lia.
Qed.

Lemma range_split (m : Z) (pre post : list Z) (n : Z) :
  range m = (pre ++ n :: post)%list -> n = Z.of_nat (length pre).
Proof.
  unfold range. intros H.
  assert (Hlen : (length pre < Z.to_nat m)%nat).
  { apply (f_equal (@length Z)) in H.
    rewrite length_map, length_seq, length_app in H. simpl in H. lia. }
  apply (f_equal (fun l => nth (length pre) l 0)) in H.
  rewrite nth_middle in H. rewrite <- H.
  change 0 with (Z.of_nat 0). rewrite map_nth, seq_nth by assumption. reflexivity.
Qed.

(** X12: the attempts of one tap search.  A search that returns has either
    counted one success, added the attempt number [n] of the winning attempt
    with [0 <= n < max_tap_tries], and made exactly [n + 1] attempts; or it
    has counted no success, added [max_tap_tries], and made exactly
    [max_tap_tries] attempts (none for a cap that is not positive).  Every
    attempt taps each drawn land once, and nothing else of the analyzer
    changes. *)
Theorem X12_tap_search_attempts (rand : nat -> nat) (draws : list string) (st st' : state) :
  analyze_tap_options rand draws st = OK (tt, st') ->
  (exists n, 0 <= n < max_tap_tries (self st) /\
     st' = mkState (set_total_tries (total_tries (self st) + n)
                      (set_successful (successful (self st) + 1) (self st)))
                   (cursor st + (Z.to_nat n + 1) * length draws)) \/
  st' = mkState (set_total_tries (total_tries (self st) + max_tap_tries (self st)) (self st))
                (cursor st + Z.to_nat (max_tap_tries (self st)) * length draws).
Proof.
  unfold analyze_tap_options. intros H.
  rewrite (bind_step _ _ _ (self st) st) in H by reflexivity.
  apply tap_loop_trace in H. destruct H as [[pre [n [post [Hns H]]]]|H].
  - left. exists n. pose proof (range_split _ _ _ _ Hns) as Hn.
    split.
    + apply range_In. rewrite Hns. apply in_or_app. right. now left.
    + rewrite H, Hn, Nat2Z.id. reflexivity.
  - right. rewrite H. unfold range. now rewrite length_map, length_seq.
Qed.

Lemma X12_tap_search_attempts_witness :
  (exists n, 0 <= n < 50 /\
     state_after (analyze_tap_options (oracle_of [0; 0; 0; 1]%nat) ["WU"; "WU"]
                    (mkState (set_deck_colors (Some ["W"; "U"]%char) init) 0))
     = mkState (set_total_tries (0 + n)
                  (set_successful (0 + 1) (set_deck_colors (Some ["W"; "U"]%char) init)))
               (0 + (Z.to_nat n + 1) * 2)) \/
  state_after (analyze_tap_options (oracle_of [0; 0; 0; 1]%nat) ["WU"; "WU"]
                 (mkState (set_deck_colors (Some ["W"; "U"]%char) init) 0))
  = mkState (set_total_tries (0 + 50) (set_deck_colors (Some ["W"; "U"]%char) init))
            (0 + Z.to_nat 50 * 2).
Proof.
  apply (X12_tap_search_attempts (oracle_of [0; 0; 0; 1]%nat) ["WU"; "WU"]
           (mkState (set_deck_colors (Some ["W"; "U"]%char) init) 0)).
  vm_compute. reflexivity.
Defined.

Lemma tap_land_total (rand : nat -> nat) (draw : string) (dc : list ascii) (st : state) :
  deck_colors (self st) = Some dc -> dc <> [] -> draw <> "" ->
  exists tapped,
    tap_land rand draw st = OK (tapped, mkState (self st) (S (cursor st))).
Proof.
  intros Hdc Hne Hdraw. unfold tap_land.
  destruct (Nat.eqb (length (list_ascii_of_string draw)) 5).
  - rewrite (bind_step _ _ _ _ _ (read_deck_colors_Some st dc Hdc)).
    destruct dc as [|d dc]; [congruence|]. rewrite choice_cons. now eexists.
  - destruct draw as [|a draw]; [congruence|]. cbn [list_ascii_of_string].
    rewrite choice_cons. now eexists.
Qed.

Lemma tap_lands_total (rand : nat -> nat) (dc : list ascii) (draws : list string) :
  dc <> [] -> (forall draw, In draw draws -> draw <> "") ->
  forall available st,
  deck_colors (self st) = Some dc ->
  exists a,
    tap_lands rand draws available st
    = OK (a, mkState (self st) (cursor st + length draws)).
Proof.
  intros Hne. induction draws as [|draw draws IH]; intros Hlab available st Hdc.
  - exists available. simpl. rewrite Nat.add_0_r. unfold ret. f_equal. f_equal. apply state_eta.
  - destruct (tap_land_total rand draw dc st Hdc Hne (Hlab draw (or_introl eq_refl)))
      as [tapped Htap].
    cbn [tap_lands]. rewrite (bind_step _ _ _ _ _ Htap).
    assert (Hlab' : forall d, In d draws -> d <> "") by (intros d Hd; apply Hlab; now right).
    destruct (negb (mem tapped available)).
    + destruct (IH Hlab' (available ++ [tapped])%list
                   (mkState (self st) (S (cursor st))) Hdc) as [a Ha].
      exists a. rewrite Ha. simpl. f_equal. f_equal. f_equal. lia.
    + destruct (IH Hlab' available (mkState (self st) (S (cursor st))) Hdc) as [a Ha].
      exists a. rewrite Ha. simpl. f_equal. f_equal. f_equal. lia.
Qed.

(** X13: the tap search returns.  With a colour identity that is not empty
    and a hand without an empty label, as every hand drawn from the land
    types is, [analyze_tap_options] raises nothing, whatever the random
    numbers and the cap. *)
Theorem X13_tap_search_returns (rand : nat -> nat) (draws : list string)
        (dc : list ascii) (st : state) :
  deck_colors (self st) = Some dc ->
  dc <> [] ->
  (forall draw, In draw draws -> draw <> "") ->
  exists st', analyze_tap_options rand draws st = OK (tt, st').
Proof.
  intros Hdc Hne Hlab. unfold analyze_tap_options.
  rewrite (bind_step _ _ _ (self st) st) by reflexivity.
  generalize (range (max_tap_tries (self st))). intros ns.
  revert st Hdc. induction ns as [|n ns IH]; intros st Hdc.
  - eexists. reflexivity.
  - destruct (tap_lands_total rand dc draws Hne Hlab [] st Hdc) as [a Ha].
    cbn [tap_loop]. rewrite (bind_step _ _ _ _ _ Ha).
    set (st1 := mkState (self st) (cursor st + length draws)).
    assert (Hdc1 : deck_colors (self st1) = Some dc) by exact Hdc.
    rewrite (bind_step _ _ _ _ _ (read_deck_colors_Some st1 dc Hdc1)).
    destruct (Nat.eqb (length a) (length dc)).
    + eexists. reflexivity.
    + apply IH. exact Hdc1.
Qed.

Lemma X13_tap_search_returns_witness :
  exists st',
    analyze_tap_options (oracle_of [3; 1; 4; 1; 5]%nat) ["WUBRG"; "C"; "UB"]
      (mkState (set_deck_colors (Some ["U"; "B"]%char) init) 0) = OK (tt, st').
Proof.
  apply (X13_tap_search_returns (oracle_of [3; 1; 4; 1; 5]%nat) ["WUBRG"; "C"; "UB"]
           ["U"; "B"]%char (mkState (set_deck_colors (Some ["U"; "B"]%char) init) 0)).
  - reflexivity.
  - discriminate.
  - intros draw Hin. simpl in Hin. intuition (subst; discriminate).
Defined.

Lemma tap_land_single (rand : nat -> nat) (c : ascii) (st : state) :
  tap_land rand (String c "") st = OK (c, mkState (self st) (S (cursor st))).
Proof.
  unfold tap_land. cbn [list_ascii_of_string length Nat.eqb].
  rewrite choice_cons. cbn [length]. now rewrite Nat.mod_1_r.
Qed.

Lemma tap_lands_single (rand : nat -> nat) (draws : list string) :
  (forall draw, In draw draws -> exists c, draw = String c "") ->
  forall available st,
  exists a,
    tap_lands rand draws available st
    = OK (a, mkState (self st) (cursor st + length draws)) /\
    (NoDup available -> NoDup a) /\
    (forall x, In x a <-> In x available \/ In x (hand_symbols draws)).
Proof.
  induction draws as [|draw draws IH]; intros Hone available st.
  - exists available. split; [|split; [tauto | simpl; tauto]].
    simpl. rewrite Nat.add_0_r. unfold ret. f_equal. f_equal. apply state_eta.
  - destruct (Hone draw (or_introl eq_refl)) as [c ->].
    assert (Hone' : forall d, In d draws -> exists c', d = String c' "")
      by (intros d Hd; apply Hone; now right).
    cbn [tap_lands]. rewrite (bind_step _ _ _ _ _ (tap_land_single rand c st)).
    destruct (mem c available) eqn:Hm; cbn [negb].
    + destruct (IH Hone' available (mkState (self st) (S (cursor st))))
        as [a [Ha [Hnd Hin]]].
      exists a. split; [|split; [assumption|]].
      * rewrite Ha. simpl. f_equal. f_equal. f_equal. lia.
      * intros x. rewrite Hin. apply mem_In in Hm. simpl.
        split; [tauto|]. intros [H|[<-|H]]; tauto.
    + destruct (IH Hone' (available ++ [c])%list (mkState (self st) (S (cursor st))))
        as [a [Ha [Hnd Hin]]].
      exists a. split; [|split].
      * rewrite Ha. simpl. f_equal. f_equal. f_equal. lia.
      * intros Hav. apply Hnd. apply mem_false in Hm.
        apply NoDup_app; [assumption | repeat constructor; simpl; tauto |].
        intros y Hy [<-|[]]. contradiction.
      * intros x. rewrite Hin, in_app_iff. simpl. tauto.
Qed.

(** X14: a hand of one-colour lands needs no second attempt.  If every drawn
    label has a single symbol, each of them a required colour, and the hand
    passes the feasibility check, then with at least one attempt allowed the
    tap search succeeds on attempt 0, whatever the random numbers: one
    success is counted and nothing is added to [total_tries]. *)
Theorem X14_one_color_lands_succeed_at_once
        (rand : nat -> nat) (draws : list string) (dc : list ascii) (st : state) :
  deck_colors (self st) = Some dc ->
  NoDup dc ->
  (forall draw, In draw draws -> exists c, draw = String c "") ->
  incl (hand_symbols draws) dc ->
  check_availability draws st = OK (true, st) ->
  1 <= max_tap_tries (self st) ->
  analyze_tap_options rand draws st =
  OK (tt, mkState (set_total_tries (total_tries (self st) + 0)
                     (set_successful (successful (self st) + 1) (self st)))
                  (cursor st + length draws)).
Proof.
  intros Hdc Hnd Hone Hsym Hchk Hmax.
  rewrite (check_availability_run draws dc st Hdc) in Hchk.
  destruct (Nat.ltb (length draws) (length dc)); [discriminate|].
  destruct (forallb (fun c => mem c (hand_symbols draws)) dc) eqn:Hall; [|discriminate].
  apply forallb_mem_incl in Hall.
  unfold analyze_tap_options. rewrite (bind_step _ _ _ (self st) st) by reflexivity.
  destruct (range_pos _ Hmax) as [ns ->].
  destruct (tap_lands_single rand draws Hone [] st) as [a [Ha [Hna Hin]]].
  cbn [tap_loop]. rewrite (bind_step _ _ _ _ _ Ha).
  set (st1 := mkState (self st) (cursor st + length draws)).
  assert (Hdc1 : deck_colors (self st1) = Some dc) by exact Hdc.
  rewrite (bind_step _ _ _ _ _ (read_deck_colors_Some st1 dc Hdc1)).
  assert (Hlen : Nat.eqb (length a) (length dc) = true).
  { apply Nat.eqb_eq.
    apply length_eq_same_colors; [apply Hna; constructor | assumption | |].
    - intros x Hx. apply Hin in Hx. destruct Hx as [[]|Hx]. now apply Hsym.
    - intros x. split.
      + intros Hx. apply Hin in Hx. destruct Hx as [[]|Hx]. now apply Hsym.
      + intros Hx. apply Hin. right. now apply Hall. }
  rewrite Hlen. reflexivity.
Qed.

Lemma X14_one_color_lands_succeed_at_once_witness :
  analyze_tap_options (oracle_of [5; 7; 9]%nat) ["R"; "W"; "R"; "G"]
    (mkState (set_deck_colors (Some ["W"; "R"; "G"]%char) init) 0)
  = OK (tt, mkState (set_total_tries (0 + 0)
                       (set_successful (0 + 1)
                          (set_deck_colors (Some ["W"; "R"; "G"]%char) init)))
                    (0 + length ["R"; "W"; "R"; "G"])).
Proof.
  apply (X14_one_color_lands_succeed_at_once (oracle_of [5; 7; 9]%nat)
           ["R"; "W"; "R"; "G"] ["W"; "R"; "G"]%char
           (mkState (set_deck_colors (Some ["W"; "R"; "G"]%char) init) 0)).
  - reflexivity.
  - repeat constructor; simpl; intuition discriminate.
  - intros draw Hin. simpl in Hin.
    destruct Hin as [<-|[<-|[<-|[<-|[]]]]]; eexists; reflexivity.
  - intros c Hc. simpl in *. tauto.
  - vm_compute. reflexivity.
  - vm_compute. discriminate.
Defined.

(** ** The colour identity and the draw pile together *)

Lemma color_union_presence (lb : list (string * Z)) (c : ascii) :
  color_union (presence lb) c <-> color_union lb c.
Proof.
  unfold color_union, presence. split; intros [Hc [land [number [Hin [Hw [Hz Hs]]]]]];
    (split; [assumption|]).
  - apply in_map_iff in Hin. destruct Hin as [[l n] [Heq Hin]]. simpl in Heq.
    injection Heq as -> <-. exists land, n. repeat split; try assumption.
    intros ->. now apply Hz.
  - exists land, (if number =? 0 then 0 else 1). repeat split; try assumption.
    + apply in_map_iff. exists (land, number). now split.
    + destruct (number =? 0) eqn:He; [apply Z.eqb_eq in He; contradiction | discriminate].
Qed.

Lemma valid_land_base_presence (lb : list (string * Z)) :
  (forall land number, In (land, number) lb -> In land LAND_TYPES) ->
  valid_land_base (presence lb).
Proof.
  intros Hlab land number Hin. unfold presence in Hin.
  apply in_map_iff in Hin. destruct Hin as [[l n] [Heq Hin]]. simpl in Heq.
  injection Heq as -> <-. split; [exact (Hlab _ _ Hin)|].
  destruct (n =? 0); lia.
Qed.

(** The colour identity of a land base over the land types, whatever the
    signs of its counts. *)
Lemma color_id_loop_labels (lb : list (string * Z)) :
  (forall land number, In (land, number) lb -> In land LAND_TYPES) ->
  NoDup (color_id_loop lb []) /\
  incl (color_id_loop lb []) colors5 /\
  forall c, In c (color_id_loop lb []) <-> color_union lb c.
Proof.
  intros Hlab.
  assert (Hin : forall c, In c (color_id_loop lb []) <-> color_union lb c).
  { intros c. rewrite <- color_id_loop_presence, <- color_union_presence.
    rewrite (color_id_loop_In _ (valid_land_base_presence lb Hlab) []
               (NoDup_nil _) (incl_nil_l _) c).
    simpl. tauto. }
  split; [apply color_id_loop_NoDup; constructor|]. split; [|exact Hin].
  intros c Hc. apply Hin in Hc. destruct Hc as [Hn [land [number [Hl [_ [_ Hs]]]]]].
  apply (land_type_symbols land); [exact (Hlab land number Hl) | assumption..].
Qed.

Lemma land_type_C_symbol (land : string) :
  In land LAND_TYPES -> In "C"%char (list_ascii_of_string land) -> land = "C".
Proof.
  unfold LAND_TYPES. intros Hl Hc.
  repeat (destruct Hl as [<-|Hl]; [simpl in Hc; intuition discriminate|]).
  destruct Hl.
Qed.

Lemma land_base_of_labels (parts_clean : list Z) (land : string) (number : Z) :
  In (land, number) (land_base_of parts_clean) -> In land LAND_TYPES.
Proof. intros Hin. exact (in_combine_l _ _ _ _ Hin). Qed.

(** The lands that a deck file puts in the pile, the WUBRG and C lands
    apart, show colours of the identity derived from that file. *)
Lemma pile_symbols_required (parts_clean : list Z) (land : string) :
  In land (pile_of (land_base_of parts_clean)) ->
  land <> "WUBRG" -> land <> "C" ->
  incl (list_ascii_of_string land) (color_id_loop (land_base_of parts_clean) []).
Proof.
  intros Hpile Hw Hc c Hsym.
  apply pile_of_In in Hpile. destruct Hpile as [number [Hl Hpos]].
  apply (color_id_loop_labels _ (land_base_of_labels parts_clean)). split.
  - intros ->. apply Hc.
    apply land_type_C_symbol; [exact (land_base_of_labels _ _ _ Hl) | assumption].
  - exists land, number. repeat split; try assumption. lia.
Qed.

(** X15: after the first initialization of a fresh analyzer, the colour
    identity has no repetition and lies within the five colours, and every
    land of the draw pile other than the WUBRG and C lands shows required
    colours only. *)
Theorem X15_pile_lands_show_required_colors
        (o : ManaAnalyzer) (cur : nat) (parts_clean : list Z) :
  fresh o ->
  (27 <= length parts_clean)%nat ->
  exists st0 dc,
    initialize parts_clean (mkState o cur) = OK (tt, st0) /\
    deck_colors (self st0) = Some dc /\
    NoDup dc /\ incl dc colors5 /\
    forall land, In land (draw_pile (self st0)) ->
      land <> "WUBRG" -> land <> "C" ->
      incl (list_ascii_of_string land) dc.
Proof.
  intros [Hlt [Hlb Hdp]] Hlen.
  destruct (color_id_loop_labels _ (land_base_of_labels parts_clean)) as [Hnd [Hincl _]].
  eexists. eexists. split; [apply initialize_fresh; assumption|].
  cbn [self deck_colors draw_pile]. rewrite Hdp. cbn [app].
  split; [reflexivity|]. split; [assumption|]. split; [assumption|].
  intros land Hpile. now apply pile_symbols_required.
Qed.

Lemma X15_pile_lands_show_required_colors_witness :
  exists st0 dc,
    initialize (deck_file [("WU", 4); ("UBR", 2); ("WUBRG", 3); ("C", 5)]) (mkState init 0)
      = OK (tt, st0) /\
    deck_colors (self st0) = Some dc /\
    NoDup dc /\ incl dc colors5 /\
    forall land, In land (draw_pile (self st0)) ->
      land <> "WUBRG" -> land <> "C" ->
      incl (list_ascii_of_string land) dc.
Proof.
  apply (X15_pile_lands_show_required_colors init 0
           (deck_file [("WU", 4); ("UBR", 2); ("WUBRG", 3); ("C", 5)])).
  - repeat split.
  - vm_compute. lia.
Defined.

(** X16: when the length test of the tap search is right.  After the first
    initialization of a fresh analyzer, for every hand of lands of the draw
    pile without a C land, an attempt passes the test
    [len(available) == len(self.deck_colors)] exactly when the colours it
    produced are the required colours. *)
Theorem X16_length_test_is_set_equality
        (rand : nat -> nat) (o : ManaAnalyzer) (cur : nat) (parts_clean : list Z)
        (st0 st st' : state) (dc : list ascii) (draws : list string) (available : list ascii) :
  fresh o ->
  (27 <= length parts_clean)%nat ->
  initialize parts_clean (mkState o cur) = OK (tt, st0) ->
  deck_colors (self st0) = Some dc ->
  self st = self st0 ->
  (forall draw, In draw draws -> In draw (draw_pile (self st0)) /\ draw <> "C") ->
  tap_lands rand draws [] st = OK (available, st') ->
  (Nat.eqb (length available) (length dc) = true <-> same_colors available dc).
Proof.
  intros Hfresh Hlen Hinit Hdc Hself Hdraws Hrun.
  destruct Hfresh as [Hlt [Hlb Hdp]].
  rewrite (initialize_fresh o cur parts_clean Hlt Hlb Hlen) in Hinit.
  injection Hinit as <-. cbn [self deck_colors draw_pile] in Hdc, Hdraws.
  rewrite Hdp in Hdraws. cbn [app] in Hdraws.
  assert (Hdceq : dc = color_id_loop (land_base_of parts_clean) []) by congruence.
  assert (Hnd : NoDup (color_id_loop (land_base_of parts_clean) []))
    by (apply color_id_loop_NoDup; constructor).
  assert (Hshow := pile_symbols_required parts_clean).
  apply tap_lands_inv in Hrun. destruct Hrun as [_ [Hna Hin]].
  rewrite Nat.eqb_eq.
  apply length_eq_same_colors;
    [apply Hna; constructor | rewrite Hdceq; assumption |].
  intros c Hc. destruct (Hin c Hc) as [[]|[draw [Hd [[_ [dc' [Hdc' Hc']]]|[H5 Hc']]]]].
  - rewrite Hself in Hdc'. cbn [self deck_colors] in Hdc'. congruence.
  - destruct (Hdraws draw Hd) as [Hpile HnC]. rewrite Hdceq.
    apply (Hshow draw Hpile); [|assumption..].
    intros ->. now apply H5.
Qed.

Lemma X16_length_test_is_set_equality_witness :
  Nat.eqb (length ["W"; "B"]%char) (length ["W"; "U"; "B"]%char) = true <->
  same_colors ["W"; "B"]%char ["W"; "U"; "B"]%char.
Proof.
  apply (X16_length_test_is_set_equality (oracle_of [0; 1; 2]%nat) init 0
           (deck_file [("WU", 2); ("UB", 1); ("WUBRG", 1); ("C", 1)])
           (state_after (initialize (deck_file [("WU", 2); ("UB", 1); ("WUBRG", 1); ("C", 1)])
                                    (mkState init 0)))
           (state_after (initialize (deck_file [("WU", 2); ("UB", 1); ("WUBRG", 1); ("C", 1)])
                                    (mkState init 0)))
           (state_after
              (tap_lands (oracle_of [0; 1; 2]%nat) ["WU"; "UB"; "WUBRG"] []
                 (state_after
                    (initialize (deck_file [("WU", 2); ("UB", 1); ("WUBRG", 1); ("C", 1)])
                                (mkState init 0)))))
           ["W"; "U"; "B"]%char ["WU"; "UB"; "WUBRG"] ["W"; "B"]%char).
  - repeat split.
  - vm_compute. lia.
  - vm_compute. reflexivity.
  - reflexivity.
  - reflexivity.
  - intros draw Hin. simpl in Hin.
    destruct Hin as [<-|[<-|[<-|[]]]]; (split; [vm_compute; tauto | discriminate]).
  - vm_compute. reflexivity.
Defined.

(** ** The trial loop ([run_simulation]) *)

(** X17: the trial loop accounts for every trial at most once and leaves the
    deck alone.  After [k] trials that raised nothing, with a cap that is not
    negative: the land base, the draw pile, the colour identity and the
    settings are as before; [impossible] has grown by at most the number of
    trials that failed the feasibility check; [successful] has grown by at
    most the number of trials that passed it; and [total_tries] has grown by
    at most [max_tap_tries] per trial that passed it. *)
Theorem X17_trial_loop_accounting
        (rand : nat -> nat) (n_of_lands : Z) (dc : list ascii) (k : nat)
        (st : state) (oks : list bool) (st' : state) :
  deck_colors (self st) = Some dc ->
  0 <= max_tap_tries (self st) ->
  trials rand k n_of_lands st = OK (oks, st') ->
  length oks = k /\
  same_setup (self st) (self st') /\
  feasible_count oks + infeasible_count oks = Z.of_nat k /\
  impossible (self st) <= impossible (self st') <=
    impossible (self st) + infeasible_count oks /\
  successful (self st) <= successful (self st') <=
    successful (self st) + feasible_count oks /\
  total_tries (self st) <= total_tries (self st') <=
    total_tries (self st) + max_tap_tries (self st) * feasible_count oks.
Proof.
  intros Hdc Hmax Hrun.
  destruct (trials_inv rand n_of_lands dc k st oks st' Hdc Hrun)
    as [Hset [Hlen [Hfew [Hpile Hbnd]]]].
  destruct (Hbnd Hmax) as [Hs Ht].
  pose proof (feasible_infeasible oks) as Hsum. rewrite Hlen in Hsum.
  assert (Hi0 : 0 <= infeasible_count oks) by (unfold infeasible_count; lia).
  assert (Himp : impossible (self st) <= impossible (self st') <=
                 impossible (self st) + infeasible_count oks).
  { destruct (Nat.ltb (hand_size n_of_lands (self st)) (length dc)) eqn:Hcmp.
    - apply Nat.ltb_lt in Hcmp. destruct (Hfew Hcmp) as [_ [Heq _]]. lia.
    - apply Nat.ltb_ge in Hcmp. specialize (Hpile Hcmp). lia. }
  split; [assumption|]. split; [assumption|]. split; [assumption|].
  split; [assumption|]. split; assumption.
Qed.

Lemma X17_trial_loop_accounting_witness :
  length [true; true; true] = 3%nat /\
  same_setup
    (self (state_after (initialize (deck_file [("WU", 2)]) (start (analyzer 3 50)))))
    (self (state_after
             (trials (oracle_of [0; 0; 1; 1; 0; 0; 0; 1]%nat) 3 2
                (state_after (initialize (deck_file [("WU", 2)]) (start (analyzer 3 50))))))) /\
  feasible_count [true; true; true] + infeasible_count [true; true; true] = Z.of_nat 3 /\
  0 <= 0 <= 0 + infeasible_count [true; true; true] /\
  0 <= 2 <= 0 + feasible_count [true; true; true] /\
  0 <= 51 <= 0 + 50 * feasible_count [true; true; true].
Proof.
  apply (X17_trial_loop_accounting (oracle_of [0; 0; 1; 1; 0; 0; 0; 1]%nat) 2
           ["W"; "U"]%char 3
           (state_after (initialize (deck_file [("WU", 2)]) (start (analyzer 3 50))))
           [true; true; true]
           (state_after
              (trials (oracle_of [0; 0; 1; 1; 0; 0; 0; 1]%nat) 3 2
                 (state_after (initialize (deck_file [("WU", 2)]) (start (analyzer 3 50))))))).
  - reflexivity.
  - vm_compute. discriminate.
  - vm_compute. reflexivity.
Defined.

(** X18: a run without trials.  When [n_of_simulations] is zero, a run whose
    initialization succeeds raises ZeroDivisionError; when it is negative,
    the loop body never runs and the run reports the rounded quotients of
    zero successes and zero attempts, the analyzer being as [initialize] left
    it. *)
Theorem X18_run_without_trials
        (rand : nat -> nat) (round2 : Q -> Q) (parts_clean : list Z) (n_of_lands : Z)
        (st st0 : state) :
  initialize parts_clean st = OK (tt, st0) ->
  n_of_simulations (self st) <= 0 ->
  run_simulation rand round2 parts_clean n_of_lands st =
  if n_of_simulations (self st) =? 0 then Raise ZeroDivisionError
  else OK ((round2 (inject_Z 0 / inject_Z (n_of_simulations (self st) - 0))%Q,
            round2 (inject_Z 0 * 100 / inject_Z (n_of_simulations (self st)))%Q), st0).
Proof.
  intros Hinit Hn.
  destruct (initialize_inv _ _ _ Hinit) as [Hs [Hi [Ht [_ [Hns _]]]]].
  rewrite run_simulation_unfold, Hinit, Hns.
  replace (Z.to_nat (n_of_simulations (self st))) with O by lia.
  cbn [trials]. unfold ret. rewrite report_run, Hs, Hi, Ht, Hns, Z.sub_0_r.
  destruct (n_of_simulations (self st) =? 0); reflexivity.
Qed.

Lemma X18_run_without_trials_witness :
  run_simulation (oracle_of []) round2_nearest (deck_file [("W", 1)]) 3 (start (analyzer 0 50))
  = Raise ZeroDivisionError.
Proof.
  apply (X18_run_without_trials (oracle_of []) round2_nearest (deck_file [("W", 1)]) 3
           (start (analyzer 0 50))
           (state_after (initialize (deck_file [("W", 1)]) (start (analyzer 0 50))))).
  - vm_compute. reflexivity.
  - vm_compute. discriminate.
Defined.
